(** * pytest-opentelemetry: the lifecycle-to-span mapping of the plugin

    A shallow embedding of [src/pytest_opentelemetry/instrumentation.py].

    The plugin is a set of pytest hook implementations.  Each hook is a
    computation over a world made of the plugin object's attributes, the
    state of the tracer (the span store, the ambient current span, what the
    exporter has received) and the process environment.  A hook wrapper
    (a generator with one [yield]) is embedded as two computations, the part
    before the [yield] and the part after it, which communicate through a
    frame holding the generator's live locals.  *)

From stdpp Require Import gmap strings list fin_maps.
From Stdlib Require Import ZArith.

Local Open Scope string_scope.
Local Open Scope list_scope.

(** ** Values the hooks receive from the runner *)

(** Span attribute values: the dictionaries of the source are
    [Dict[str, Union[str, int]]]. *)
Inductive AttrValue :=
| AStr (s : string)
| AInt (n : Z).

#[global] Instance AttrValue_eq_dec : EqDecision AttrValue.
Proof. solve_decision. Defined.

(** [item.location] is [(filepath, line_number, name)], the line number being
    optional. *)
Record Item := mkItem {
  item_name : string;
  item_nodeid : string;
  item_location : string * option Z * string;
}.

(** A pure path of [pathlib], as far as the hooks use one: an anchor (empty
    for a relative path) and the parts below it. *)
Record Path := mkPath {
  path_anchor : string;
  path_parts : list string;
}.

Inductive CachedResult := Cached.

(** [fixturedef], with the pair that
    [getfslineno(resolve_fixture_function(fixturedef, request))] yields for
    it. *)
Record FixtureDef := mkFixtureDef {
  argname : string;
  cached_result : option CachedResult;
  has_location : bool;
  fslineno : Path * Z;
}.

Record SubRequest := mkSubRequest {
  rootpath : Path;
}.

(** [call.excinfo]: [str(excinfo.type)], the qualified name of the type of
    [excinfo.value], [str(excinfo.value)] and the formatted traceback of the
    value. *)
Record ExceptionInfo := mkExceptionInfo {
  exc_type_str : string;
  exc_type_name : string;
  exc_value_str : string;
  exc_traceback : string;
}.

Record CallInfo := mkCallInfo {
  excinfo : option ExceptionInfo;
}.

Record TestReport := mkTestReport {
  when : string;
  outcome : string;
  longrepr : string;
}.

Record Config := mkConfig {
  opt_trace_parent : option string;       (* config.getvalue('--trace-parent') *)
  workerinput : option (gmap string string);  (* getattr(config, 'workerinput', None) *)
  opt_export_traces : bool;               (* config.getoption('--export-traces') *)
}.

(** ** The tracer

    The tracing library is an external collaborator.  Its state is kept as a
    store of spans addressed by their index (a span object is shared between
    the plugin attribute that holds it, the ambient context and the
    exporter), the ambient current span, and the list of spans handed to the
    exporter, in the order of their [end()] calls. *)

Inductive StatusCode := UNSET | OK | ERROR.

#[global] Instance StatusCode_eq_dec : EqDecision StatusCode.
Proof. solve_decision. Defined.

Record Status := mkStatus {
  status_code : StatusCode;
  description : option string;
}.


Record SpanEvent := mkSpanEvent {
  ev_name : string;
  ev_attributes : gmap string AttrValue;
}.

(** What a context holds under its current-span key: a span of this process
    or the remote span a propagator extracted from a carrier, known by its
    trace id, its span id and its trace flags (as the hexadecimal digits of
    the carrier). *)
Inductive SpanRef :=
| LocalSpan (sid : nat)
| RemoteSpan (trace_id span_id trace_flags : string).

(** A context is empty or holds a span. *)
Definition Context := option SpanRef.

(** [propagate.extract(carrier)] with the propagators the library installs
    by default.  Of these the trace-context propagator is the one that puts
    a span into the context: it reads the carrier's "traceparent" entry as
    optional blanks, a version of 2 lower-case hexadecimal digits, a trace
    id of 32, a span id of 16 and trace flags of 2, separated by dashes,
    then optionally a dash and the rest of the line (the fifth group), then
    optional blanks.  It hands back the empty context when there is no such
    entry, when the entry does not read so, when the trace id or the span
    id is all zeros, when version 00 comes with a fifth group, and for
    version ff. *)
Definition is_hex_digit (c : Ascii.ascii) : bool :=
  let n := Ascii.nat_of_ascii c in
  (Nat.leb 48 n && Nat.leb n 57) || (Nat.leb 97 n && Nat.leb n 102).

Definition is_blank (c : Ascii.ascii) : bool :=
  Nat.eqb (Ascii.nat_of_ascii c) 32 || Nat.eqb (Ascii.nat_of_ascii c) 9.

Definition is_newline (c : Ascii.ascii) : bool := Nat.eqb (Ascii.nat_of_ascii c) 10.

Definition is_empty (s : string) : bool :=
  match s with EmptyString => true | _ => false end.

Fixpoint skip_blanks (s : string) : string :=
  match s with
  | String c s' => if is_blank c then skip_blanks s' else s
  | EmptyString => s
  end.

(** [k] hexadecimal digits, and what follows them. *)
Fixpoint take_hex (k : nat) (s : string) : option (string * string) :=
  match k, s with
  | O, _ => Some (EmptyString, s)
  | S k', String c s' =>
      if is_hex_digit c then
        match take_hex k' s' with
        | Some (digits, rest) => Some (String c digits, rest)
        | None => None
        end
      else None
  | S _, EmptyString => None
  end.

Definition take_dash (s : string) : option string :=
  match s with
  | String c s' => if Nat.eqb (Ascii.nat_of_ascii c) 45 then Some s' else None
  | EmptyString => None
  end.

(** Blanks up to the end, or up to a newline that ends the string. *)
Fixpoint blanks_to_end (s : string) : bool :=
  match s with
  | EmptyString => true
  | String c s' =>
      if is_blank c then blanks_to_end s' else is_newline c && is_empty s'
  end.

(** Any characters up to the end of the line, which ends the string. *)
Fixpoint line_to_end (s : string) : bool :=
  match s with
  | EmptyString => true
  | String c s' => if is_newline c then is_empty s' else line_to_end s'
  end.

(** What may follow the trace flags: whether the fifth group is there,
    when the rest reads as it should. *)
Definition match_future_version (s : string) : option bool :=
  match take_dash s with
  | Some s' => if line_to_end s' then Some true else None
  | None => if blanks_to_end s then Some false else None
  end.

Fixpoint all_zeros (s : string) : bool :=
  match s with
  | EmptyString => true
  | String c s' => Nat.eqb (Ascii.nat_of_ascii c) 48 && all_zeros s'
  end.

(** The trace id, the span id and the trace flags of a header the
    propagator accepts. *)
Definition parse_traceparent (header : string)
    : option (string * string * string) :=
  match take_hex 2 (skip_blanks header) with
  | Some (version, s1) =>
  match take_dash s1 with
  | Some s1 =>
  match take_hex 32 s1 with
  | Some (trace_id, s2) =>
  match take_dash s2 with
  | Some s2 =>
  match take_hex 16 s2 with
  | Some (span_id, s3) =>
  match take_dash s3 with
  | Some s3 =>
  match take_hex 2 s3 with
  | Some (trace_flags, s4) =>
  match match_future_version s4 with
  | Some future_version =>
      if all_zeros trace_id || all_zeros span_id then None
      else if String.eqb version "00" && future_version then None
      else if String.eqb version "ff" then None
      else Some (trace_id, span_id, trace_flags)
  | None => None
  end
  | None => None
  end
  | None => None
  end
  | None => None
  end
  | None => None
  end
  | None => None
  end
  | None => None
  end
  | None => None
  end.

Definition propagate_extract (carrier : gmap string string) : Context :=
  match carrier !! "traceparent" with
  | Some header =>
      match parse_traceparent header with
      | Some (trace_id, span_id, trace_flags) =>
          Some (RemoteSpan trace_id span_id trace_flags)
      | None => None
      end
  | None => None
  end.

Record Span := mkSpan {
  sp_name : string;
  sp_parent : option SpanRef;
  sp_attributes : gmap string AttrValue;
  sp_status : Status;
  sp_events : list SpanEvent;
  sp_ended : bool;
}.

Record Tracer := mkTracer {
  spans : list Span;
  reported : list nat;
  current_span : option nat;
  has_force_flush : bool;   (* hasattr(provider, 'force_flush') *)
  flushes : nat;            (* calls of provider.force_flush() so far *)
}.

Definition new_span (name : string) (parent : option SpanRef)
    (attributes : gmap string AttrValue) : Span :=
  {| sp_name := name; sp_parent := parent; sp_attributes := attributes;
     sp_status := mkStatus UNSET None; sp_events := []; sp_ended := false |}.

Definition with_spans (f : list Span → list Span) (t : Tracer) : Tracer :=
  {| spans := f (spans t); reported := reported t;
     current_span := current_span t; has_force_flush := has_force_flush t;
     flushes := flushes t |}.

(** [tracer.start_span(name, context=..., attributes=...)]: with no explicit
    context the parent is the ambient current span. *)
Definition tracer_start_span (name : string) (context : option Context)
    (attributes : gmap string AttrValue) (t : Tracer) : nat * Tracer :=
  let parent := match context with
                | Some c => c
                | None => LocalSpan <$> current_span t
                end in
  (length (spans t), with_spans (λ l, l ++ [new_span name parent attributes]) t).

(** A span that has ended no longer records: every mutation goes through
    this guard. *)
Definition while_recording (f : Span → Span) (s : Span) : Span :=
  if sp_ended s then s else f s.

Definition span_update_name (name : string) (s : Span) : Span :=
  {| sp_name := name; sp_parent := sp_parent s;
     sp_attributes := sp_attributes s; sp_status := sp_status s;
     sp_events := sp_events s; sp_ended := sp_ended s |}.

(** [set_attributes] writes each key of the dictionary over the span's. *)
Definition span_set_attributes (attributes : gmap string AttrValue)
    (s : Span) : Span :=
  {| sp_name := sp_name s; sp_parent := sp_parent s;
     sp_attributes := attributes ∪ sp_attributes s;
     sp_status := sp_status s; sp_events := sp_events s;
     sp_ended := sp_ended s |}.

(** [set_status]: a status that is already OK is final, and a call that
    would set the status to UNSET is ignored. *)
Definition span_set_status (st : Status) (s : Span) : Span :=
  match status_code (sp_status s), status_code st with
  | OK, _ | _, UNSET => s
  | _, _ =>
      {| sp_name := sp_name s; sp_parent := sp_parent s;
         sp_attributes := sp_attributes s; sp_status := st;
         sp_events := sp_events s; sp_ended := sp_ended s |}
  end.

Definition span_add_event (ev : SpanEvent) (s : Span) : Span :=
  {| sp_name := sp_name s; sp_parent := sp_parent s;
     sp_attributes := sp_attributes s; sp_status := sp_status s;
     sp_events := sp_events s ++ [ev]; sp_ended := sp_ended s |}.

Definition span_mark_ended (s : Span) : Span :=
  {| sp_name := sp_name s; sp_parent := sp_parent s;
     sp_attributes := sp_attributes s; sp_status := sp_status s;
     sp_events := sp_events s; sp_ended := true |}.

Definition tracer_update (sid : nat) (f : Span → Span) (t : Tracer) : Tracer :=
  with_spans (alter (while_recording f) sid) t.

(** [span.end()]: the span stops recording and goes to the exporter; a
    second call does nothing. *)
Definition tracer_end (sid : nat) (t : Tracer) : Tracer :=
  match spans t !! sid with
  | Some s =>
      if sp_ended s then t
      else {| spans := <[sid := span_mark_ended s]> (spans t);
              reported := reported t ++ [sid];
              current_span := current_span t;
              has_force_flush := has_force_flush t;
              flushes := flushes t |}
  | None => t
  end.

(** [context.attach(set_span_in_context(span))] returns a token that holds
    the context it replaced; [context.detach(token)] puts that one back. *)
Definition tracer_attach (sid : nat) (t : Tracer) : option nat * Tracer :=
  (current_span t,
   {| spans := spans t; reported := reported t; current_span := Some sid;
      has_force_flush := has_force_flush t; flushes := flushes t |}).

Definition tracer_detach (token : option nat) (t : Tracer) : Tracer :=
  {| spans := spans t; reported := reported t; current_span := token;
     has_force_flush := has_force_flush t; flushes := flushes t |}.

(** The SDK's tracer provider becomes the global one; it implements
    [force_flush]. *)
Definition tracer_install_provider (t : Tracer) : Tracer :=
  {| spans := spans t; reported := reported t;
     current_span := current_span t; has_force_flush := true;
     flushes := flushes t |}.

Definition tracer_force_flush (t : Tracer) : Tracer :=
  {| spans := spans t; reported := reported t;
     current_span := current_span t; has_force_flush := has_force_flush t;
     flushes := S (flushes t) |}.

(** [span.record_exception(exception, attributes)]: one event named
    "exception" with the type, message and traceback of the exception, the
    given attributes written over them. *)
Definition exception_event (e : ExceptionInfo)
    (attributes : gmap string AttrValue) : SpanEvent :=
  {| ev_name := "exception";
     ev_attributes :=
       attributes ∪
       <["exception.type" := AStr (exc_type_name e)]>
       (<["exception.message" := AStr (exc_value_str e)]>
       (<["exception.stacktrace" := AStr (exc_traceback e)]>
       (<["exception.escaped" := AStr "False"]> ∅))) |}.

(** ** The plugin object and the world *)

Inductive PluginClass := OpenTelemetryPlugin | XdistOpenTelemetryPlugin.

(** The instance attributes of the plugin; [None] is an attribute that does
    not exist (yet, or any more). *)
Record Plugin := mkPlugin {
  plugin_class : PluginClass;
  _session_name : option string;
  trace_parent : option (option Context);
  session_span : option nat;
  has_error : option bool;
  fixture_teardown_span : option nat;
}.

Record World := mkWorld {
  plugin : Plugin;
  tracer : Tracer;
  environ : gmap string string;
}.

Inductive Exception :=
| AttributeError (name : string)
| AssertionError.

Inductive Result (A : Type) :=
| Ok (a : A)
| Raised (e : Exception).
Arguments Ok {A} a.
Arguments Raised {A} e.

(** Hook code: it reads and writes the world and may raise.  What was written
    before a raise stays written. *)
Definition M (A : Type) : Type := World → Result A * World.

Definition ret {A} (a : A) : M A := λ w, (Ok a, w).

Definition bind {A B} (m : M A) (f : A → M B) : M B :=
  λ w, match m w with
       | (Ok a, w') => f a w'
       | (Raised e, w') => (Raised e, w')
       end.

Definition raise {A} (e : Exception) : M A := λ w, (Raised e, w).

Notation "'let*' x ':=' m 'in' k" := (bind m (λ x, k))
  (at level 10, x name, m at level 100, k at level 200).
Notation "m '>>' k" := (bind m (λ _, k))
  (at level 100, k at level 200, right associativity).

Definition on_tracer {A} (f : Tracer → A * Tracer) : M A :=
  λ w, let '(a, t) := f (tracer w) in
       (Ok a, {| plugin := plugin w; tracer := t; environ := environ w |}).

Definition on_tracer_ (f : Tracer → Tracer) : M unit :=
  on_tracer (λ t, (tt, f t)).

Definition on_plugin (f : Plugin → Plugin) : M unit :=
  λ w, (Ok tt, {| plugin := f (plugin w); tracer := tracer w;
                  environ := environ w |}).

(** [self.<name>]: an [AttributeError] when the attribute is not there. *)
Definition getattr {A} (name : string) (field : Plugin → option A) : M A :=
  λ w, match field (plugin w) with
       | Some a => (Ok a, w)
       | None => (Raised (AttributeError name), w)
       end.

Definition hasattr {A} (field : Plugin → option A) : M bool :=
  λ w, (Ok (bool_decide (is_Some (field (plugin w)))), w).

Definition os_environ_get (key : string) : M (option string) :=
  λ w, (Ok (environ w !! key), w).

Definition start_span (name : string) (context : option Context)
    (attributes : gmap string AttrValue) : M nat :=
  on_tracer (tracer_start_span name context attributes).

(** [trace.get_current_span()]; with nothing current the library hands out
    an invalid span on which every operation does nothing. *)
Definition get_current_span : M (option nat) :=
  λ w, (Ok (current_span (tracer w)), w).

Definition on_span (sp : option nat) (f : Span → Span) : M unit :=
  match sp with
  | Some sid => on_tracer_ (tracer_update sid f)
  | None => ret tt
  end.

Definition set_session_name (v : option string) (p : Plugin) : Plugin :=
  {| plugin_class := plugin_class p; _session_name := v;
     trace_parent := trace_parent p; session_span := session_span p;
     has_error := has_error p;
     fixture_teardown_span := fixture_teardown_span p |}.

Definition set_trace_parent (v : option (option Context)) (p : Plugin) : Plugin :=
  {| plugin_class := plugin_class p; _session_name := _session_name p;
     trace_parent := v; session_span := session_span p;
     has_error := has_error p;
     fixture_teardown_span := fixture_teardown_span p |}.

Definition set_session_span (v : option nat) (p : Plugin) : Plugin :=
  {| plugin_class := plugin_class p; _session_name := _session_name p;
     trace_parent := trace_parent p; session_span := v;
     has_error := has_error p;
     fixture_teardown_span := fixture_teardown_span p |}.

Definition set_has_error (v : option bool) (p : Plugin) : Plugin :=
  {| plugin_class := plugin_class p; _session_name := _session_name p;
     trace_parent := trace_parent p; session_span := session_span p;
     has_error := v;
     fixture_teardown_span := fixture_teardown_span p |}.

Definition set_fixture_teardown_span (v : option nat) (p : Plugin) : Plugin :=
  {| plugin_class := plugin_class p; _session_name := _session_name p;
     trace_parent := trace_parent p; session_span := session_span p;
     has_error := has_error p;
     fixture_teardown_span := v |}.

(** ** Helpers of the hooks *)

Definition PYTEST_SPAN_TYPE : string := "pytest.span_type".
Definition CODE_FILEPATH : string := "code.filepath".
Definition CODE_FUNCTION : string := "code.function".
Definition CODE_LINENO : string := "code.lineno".
Definition EXCEPTION_STACKTRACE : string := "exception.stacktrace".

(** Truth values of the conditions the hooks test. *)
Definition truthy_int (n : Z) : bool := negb (n =? 0)%Z.

Definition truthy_opt_int (n : option Z) : bool :=
  match n with Some n => truthy_int n | None => false end.

Definition truthy_str (s : string) : bool :=
  match s with EmptyString => false | _ => true end.

(** [Path.is_relative_to], [Path.relative_to] and [str(path)]. *)
Fixpoint parts_prefix (root p : list string) : bool :=
  match root, p with
  | [], _ => true
  | r :: root', x :: p' => String.eqb r x && parts_prefix root' p'
  | _ :: _, [] => false
  end.

Definition is_relative_to (p root : Path) : bool :=
  String.eqb (path_anchor p) (path_anchor root)
  && parts_prefix (path_parts root) (path_parts p).

Definition relative_to (p root : Path) : Path :=
  {| path_anchor := ""; path_parts := drop (length (path_parts root)) (path_parts p) |}.

Fixpoint join_parts (l : list string) : string :=
  match l with
  | [] => ""
  | [x] => x
  | x :: l' => x +:+ "/" +:+ join_parts l'
  end.

Definition path_str (p : Path) : string :=
  match path_anchor p, path_parts p with
  | EmptyString, [] => "."
  | a, l => a +:+ join_parts l
  end.

(** The dictionary each of the four item hooks builds from [item.location];
    the source writes it out in each of them, with its own span type. *)
Definition item_attributes (item : Item) (span_type : string)
    : gmap string AttrValue :=
  let '(filepath, line_number, _) := item_location item in
  let attributes : gmap string AttrValue :=
    <[CODE_FILEPATH := AStr filepath]>
    (<[CODE_FUNCTION := AStr (item_name item)]>
    (<["pytest.nodeid" := AStr (item_nodeid item)]>
    (<[PYTEST_SPAN_TYPE := AStr span_type]> ∅))) in
  match line_number with
  | Some n => if truthy_int n then <[CODE_LINENO := AInt n]> attributes
              else attributes
  | None => attributes
  end.

(** The dictionary the two fixture hooks build. *)
Definition fixture_attributes (fixturedef : FixtureDef) (request : SubRequest)
    (span_type : string) : gmap string AttrValue :=
  let attributes : gmap string AttrValue :=
    <[PYTEST_SPAN_TYPE := AStr span_type]> ∅ in
  if has_location fixturedef then
    let '(filepath, line_number) := fslineno fixturedef in
    let filepath :=
      if is_relative_to filepath (rootpath request)
      then relative_to filepath (rootpath request) else filepath in
    let attributes := <[CODE_FILEPATH := AStr (path_str filepath)]> attributes in
    if truthy_int line_number
    then <[CODE_LINENO := AInt line_number]> attributes
    else attributes
  else attributes.

(** [with tracer.start_as_current_span(name, attributes=..., context=...)]:
    entering starts the span and makes it current; leaving puts the previous
    context back and ends the span. *)
Definition start_as_current_span (name : string) (context : option Context)
    (attributes : gmap string AttrValue) : M (nat * option nat) :=
  let* span := start_span name context attributes in
  let* token := on_tracer (tracer_attach span) in
  ret (span, token).

Definition exit_current_span (frame : nat * option nat) : M unit :=
  on_tracer_ (tracer_detach (frame.2)) >>
  on_tracer_ (tracer_end (frame.1)).

(** ** The hooks of [OpenTelemetryPlugin] *)

Definition session_name : M string :=
  let* has := hasattr _session_name in
  (if has : bool then ret tt
   else
     let* v := os_environ_get "PYTEST_RUN_NAME" in
     on_plugin (set_session_name (Some (default "test run" v)))) >>
  getattr "_session_name" _session_name.

(** [if v := e:], the value bound only when it is truthy. *)
Definition walrus_str (v : option string) : option string :=
  match v with
  | Some s => if truthy_str s then Some s else None
  | None => None
  end.

Definition walrus_dict (v : option (gmap string string))
    : option (gmap string string) :=
  match v with
  | Some d => if bool_decide (d = ∅) then None else Some d
  | None => None
  end.

Definition base_get_trace_parent (config : Config) : M (option Context) :=
  match walrus_str (opt_trace_parent config) with
  | Some trace_parent =>
      ret (Some (propagate_extract {[ "traceparent" := trace_parent ]}))
  | None =>
      let* v := os_environ_get "TRACEPARENT" in
      match walrus_str v with
      | Some trace_parent =>
          ret (Some (propagate_extract {[ "traceparent" := trace_parent ]}))
      | None => ret None
      end
  end.

Definition get_trace_parent (cls : PluginClass) (config : Config)
    : M (option Context) :=
  match cls with
  | OpenTelemetryPlugin => base_get_trace_parent config
  | XdistOpenTelemetryPlugin =>
      match walrus_dict (workerinput config) with
      | Some workerinput => ret (Some (propagate_extract workerinput))
      | None => base_get_trace_parent config
      end
  end.

Definition try_force_flush : M bool :=
  λ w, if has_force_flush (tracer w)
       then (on_tracer_ tracer_force_flush >> ret true) w
       else (Ok false, w).

(** [OpenTelemetryContainerDistro().configure()] chooses the exporters
    through defaults for environment variables of the tracing library; the
    variables the hooks read are left as they are, and the exporters are not
    part of this state. *)
Definition distro_configure : M unit := ret tt.

(** [configurator.configure()], with the two resource detectors appended:
    the SDK's tracer provider is built and installed. *)
Definition configurator_configure : M unit :=
  on_tracer_ tracer_install_provider.

Definition base_pytest_configure (config : Config) : M unit :=
  let* cls := (λ w, (Ok (plugin_class (plugin w)), w)) in
  let* tp := get_trace_parent cls config in
  on_plugin (set_trace_parent (Some tp)) >>
  (if opt_export_traces config then distro_configure else ret tt) >>
  configurator_configure.

Definition pytest_configure (config : Config) : M unit :=
  let* cls := (λ w, (Ok (plugin_class (plugin w)), w)) in
  match cls with
  | OpenTelemetryPlugin => base_pytest_configure config
  | XdistOpenTelemetryPlugin =>
      base_pytest_configure config >>
      let worker_id := default ∅ (workerinput config) !! "workerid" in
      let* name :=
        match walrus_str worker_id with
        | Some worker_id => ret ("test worker " +:+ worker_id)
        | None => session_name
        end in
      on_plugin (set_session_name (Some name))
  end.

Definition pytest_sessionstart : M unit :=
  let* name := session_name in
  let* context := getattr "trace_parent" trace_parent in
  let* span := start_span name context (<[PYTEST_SPAN_TYPE := AStr "run"]> ∅) in
  on_plugin (set_session_span (Some span)) >>
  on_plugin (set_has_error (Some false)).

Definition pytest_sessionfinish : M unit :=
  let* span := getattr "session_span" session_span in
  let* has_error := getattr "has_error" has_error in
  on_span (Some span)
    (span_set_status (mkStatus (if has_error : bool then ERROR else OK) None)) >>
  let* span := getattr "session_span" session_span in
  on_tracer_ (tracer_end span) >>
  let* _ := try_force_flush in
  ret tt.

Definition pytest_runtest_protocol_enter (item : Item) : M (nat * option nat) :=
  let* session := getattr "session_span" session_span in
  let context : Context := Some (LocalSpan session) in
  start_as_current_span (item_name item) (Some context)
    (item_attributes item "test").

Definition pytest_runtest_protocol_exit := exit_current_span.

Definition pytest_runtest_setup_enter (item : Item) : M (nat * option nat) :=
  start_as_current_span (item_name item +:+ " setup") None
    (item_attributes item "test setup").

Definition pytest_runtest_setup_exit := exit_current_span.

Definition pytest_runtest_call_enter (item : Item) : M (nat * option nat) :=
  start_as_current_span (item_name item +:+ " call") None
    (item_attributes item "test call").

Definition pytest_runtest_call_exit := exit_current_span.

Definition pytest_runtest_teardown_enter (item : Item) : M (nat * option nat) :=
  let* frame := start_as_current_span (item_name item +:+ " teardown") None
                  (item_attributes item "test teardown") in
  let* span := start_span "fixture teardown" None ∅ in
  on_plugin (set_fixture_teardown_span (Some span)) >>
  ret frame.

Definition pytest_runtest_teardown_exit (frame : nat * option nat) : M unit :=
  exit_current_span frame >>
  let* _ := getattr "fixture_teardown_span" fixture_teardown_span in
  on_plugin (set_fixture_teardown_span None).

Definition pytest_fixture_setup_enter (fixturedef : FixtureDef)
    (request : SubRequest) : M (nat * option nat) :=
  start_as_current_span (argname fixturedef +:+ " setup") None
    (fixture_attributes fixturedef request "fixture setup").

Definition pytest_fixture_setup_exit := exit_current_span.

(** Where the generator of [pytest_fixture_post_finalizer] is suspended. *)
Inductive FinalizerFrame :=
| AtYieldNoSpan        (* the attribute was missing *)
| AtYieldNoCache       (* the fixture had no cached result *)
| AtYieldNamed.        (* the span was renamed and awaits its end *)

Definition pytest_fixture_post_finalizer_enter (fixturedef : FixtureDef)
    (request : SubRequest) : M FinalizerFrame :=
  let* has := hasattr fixture_teardown_span in
  if negb has then ret AtYieldNoSpan
  else
    match cached_result fixturedef with
    | None => ret AtYieldNoCache
    | Some _ =>
        let name := argname fixturedef +:+ " teardown" in
        let* span := getattr "fixture_teardown_span" fixture_teardown_span in
        on_span (Some span) (span_update_name name) >>
        let attributes := fixture_attributes fixturedef request "fixture teardown" in
        let* span := getattr "fixture_teardown_span" fixture_teardown_span in
        on_span (Some span) (span_set_attributes attributes) >>
        ret AtYieldNamed
    end.

Definition pytest_fixture_post_finalizer_exit (frame : FinalizerFrame) : M unit :=
  match frame with
  | AtYieldNoSpan | AtYieldNoCache =>
      let* span := start_span "fixture teardown" None ∅ in
      on_plugin (set_fixture_teardown_span (Some span))
  | AtYieldNamed =>
      let* span := getattr "fixture_teardown_span" fixture_teardown_span in
      on_tracer_ (tracer_end span) >>
      let* span := start_span "fixture teardown" None ∅ in
      on_plugin (set_fixture_teardown_span (Some span))
  end.

Definition pytest_exception_interact (call : CallInfo) (report : TestReport)
    : M unit :=
  match excinfo call with
  | None => raise AssertionError
  | Some excinfo =>
      let* test_span := get_current_span in
      on_span test_span
        (span_add_event
           (exception_event excinfo
              (<[EXCEPTION_STACKTRACE := AStr (longrepr report)]> ∅))) >>
      on_span test_span
        (span_set_status
           (mkStatus ERROR
              (Some (exc_type_str excinfo +:+ ": " +:+ exc_value_str excinfo))))
  end.

Definition pytest_runtest_logreport (report : TestReport) : M unit :=
  if negb (String.eqb (when report) "call") then ret tt
  else
    let failed := String.eqb (outcome report) "failed" in
    let status_code := if failed then ERROR else OK in
    let* old := getattr "has_error" has_error in
    on_plugin (set_has_error (Some (old || failed))) >>
    let* span := get_current_span in
    on_span span (span_set_status (mkStatus status_code None)).

(** ** The notifications of the runner

    The runner calls the hooks in a nested fashion: what happens between the
    two halves of a hook wrapper are the notifications the runner sends
    while the wrapped hook runs. *)

#[warnings="-register-all"]
Inductive Notification :=
| Configure (config : Config)
| SessionStart
| SessionFinish
| RuntestProtocol (item : Item) (inner : list Notification)
| RuntestSetup (item : Item) (inner : list Notification)
| RuntestCall (item : Item) (inner : list Notification)
| RuntestTeardown (item : Item) (inner : list Notification)
| FixtureSetup (fixturedef : FixtureDef) (request : SubRequest)
    (inner : list Notification)
| FixturePostFinalizer (fixturedef : FixtureDef) (request : SubRequest)
    (inner : list Notification)
| ExceptionInteract (call : CallInfo) (report : TestReport)
| RuntestLogreport (report : TestReport).

Fixpoint in_order (ms : list (M unit)) : M unit :=
  match ms with
  | [] => ret tt
  | m :: ms' => m >> in_order ms'
  end.

(** A hook wrapper around what it wraps.  The generator is resumed with the
    outcome of the wrapped hook, also when that raised: the part after the
    [yield] runs either way, and an exception of the wrapped hook goes on to
    the caller after it, unless that part raises itself. *)
Definition after_outcome (inner exit : M unit) : M unit :=
  λ w, match inner w with
       | (Ok _, w') => exit w'
       | (Raised e, w') =>
           match exit w' with
           | (Ok _, w'') => (Raised e, w'')
           | (Raised e', w'') => (Raised e', w'')
           end
       end.

Definition hookwrapper {F} (enter : M F) (exit : F → M unit)
    (inner : M unit) : M unit :=
  let* frame := enter in
  after_outcome inner (exit frame).

Fixpoint notify (n : Notification) : M unit :=
  match n with
  | Configure config => pytest_configure config
  | SessionStart => pytest_sessionstart
  | SessionFinish => pytest_sessionfinish
  | RuntestProtocol item inner =>
      hookwrapper (pytest_runtest_protocol_enter item)
        pytest_runtest_protocol_exit (in_order (map notify inner))
  | RuntestSetup item inner =>
      hookwrapper (pytest_runtest_setup_enter item)
        pytest_runtest_setup_exit (in_order (map notify inner))
  | RuntestCall item inner =>
      hookwrapper (pytest_runtest_call_enter item)
        pytest_runtest_call_exit (in_order (map notify inner))
  | RuntestTeardown item inner =>
      hookwrapper (pytest_runtest_teardown_enter item)
        pytest_runtest_teardown_exit (in_order (map notify inner))
  | FixtureSetup fixturedef request inner =>
      hookwrapper (pytest_fixture_setup_enter fixturedef request)
        pytest_fixture_setup_exit (in_order (map notify inner))
  | FixturePostFinalizer fixturedef request inner =>
      hookwrapper (pytest_fixture_post_finalizer_enter fixturedef request)
        pytest_fixture_post_finalizer_exit (in_order (map notify inner))
  | ExceptionInteract call report => pytest_exception_interact call report
  | RuntestLogreport report => pytest_runtest_logreport report
  end.

Definition notify_all (ns : list Notification) : M unit :=
  in_order (map notify ns).

(** A fresh process: a plugin object without attributes and a tracer that
    has seen nothing. *)
Definition fresh_plugin (cls : PluginClass) : Plugin :=
  {| plugin_class := cls; _session_name := None; trace_parent := None;
     session_span := None; has_error := None;
     fixture_teardown_span := None |}.

Definition fresh_tracer (flush : bool) : Tracer :=
  {| spans := []; reported := []; current_span := None;
     has_force_flush := flush; flushes := 0 |}.

Definition fresh_world (cls : PluginClass) (flush : bool)
    (env : gmap string string) : World :=
  {| plugin := fresh_plugin cls; tracer := fresh_tracer flush; environ := env |}.

(** Reading the outcome of a notification sequence. *)
Definition span_of (w : World) (sid : nat) : option Span :=
  spans (tracer w) !! sid.

Definition reported_spans (w : World) : list Span :=
  omap (span_of w) (reported (tracer w)).

Definition reported_names (w : World) : list string :=
  sp_name <$> reported_spans w.

(** ** What the runner sends for one test item

    The runner reports an item phase by phase: the hook of the phase, the
    report of the phase, and an exception interaction when the phase
    raised.  The call phase is left out when the setup phase failed. *)

Inductive Verdict :=
| Passed
| Failed (e : ExceptionInfo) (long : string)
| Skipped.

Definition verdict_report (phase : string) (v : Verdict) : TestReport :=
  match v with
  | Passed => mkTestReport phase "passed" ""
  | Failed _ long => mkTestReport phase "failed" long
  | Skipped => mkTestReport phase "skipped" ""
  end.

Definition phase_end (phase : string) (v : Verdict) : list Notification :=
  RuntestLogreport (verdict_report phase v) ::
  match v with
  | Failed e _ => [ExceptionInteract (mkCallInfo (Some e)) (verdict_report phase v)]
  | _ => []
  end.

(** An item that uses no fixture. *)
Definition item_without_fixtures (item : Item) (call : Verdict) : Notification :=
  RuntestProtocol item
    (RuntestSetup item [] :: phase_end "setup" Passed ++
     RuntestCall item [] :: phase_end "call" call ++
     RuntestTeardown item [] :: phase_end "teardown" Passed).

(** The finalizer notifications of a teardown phase, one per fixture
    finalization the runner performs (a fixture that other fixtures depend
    on is finalized once more through each of them, then without a cached
    result). *)
Definition finalizers (fds : list (FixtureDef * SubRequest)) : list Notification :=
  (λ fd, FixturePostFinalizer fd.1 fd.2 []) <$> fds.

Definition has_cached_result (fd : FixtureDef * SubRequest) : Prop :=
  is_Some (cached_result fd.1).

#[global] Instance has_cached_result_dec fd : Decision (has_cached_result fd).
Proof. unfold has_cached_result. apply _. Defined.

(** An item whose fixture raises while it is set up: the setup phase fails,
    the runner skips the call phase and goes on with the teardown. *)
Definition item_with_failing_fixture (item : Item) (fixturedef : FixtureDef)
    (request : SubRequest) (e : ExceptionInfo) (long : string) : Notification :=
  RuntestProtocol item
    (RuntestSetup item [FixtureSetup fixturedef request []]
       :: phase_end "setup" (Failed e long) ++
     RuntestTeardown item [FixturePostFinalizer fixturedef request []]
       :: phase_end "teardown" Passed).

(** An item that uses one fixture and passes. *)
Definition item_with_fixture (item : Item) (fixturedef : FixtureDef)
    (request : SubRequest) : Notification :=
  RuntestProtocol item
    (RuntestSetup item [FixtureSetup fixturedef request []]
       :: phase_end "setup" Passed ++
     RuntestCall item [] :: phase_end "call" Passed ++
     RuntestTeardown item [FixturePostFinalizer fixturedef request []]
       :: phase_end "teardown" Passed).



(** ** Reading spans *)

(** The name of a span and the kind the plugin tagged it with. *)
Definition span_label (s : Span) : string * option AttrValue :=
  (sp_name s, sp_attributes s !! PYTEST_SPAN_TYPE).

Definition span_lineno (s : Span) : option AttrValue :=
  sp_attributes s !! CODE_LINENO.

(** The placeholder span as the hooks start it, and what a finalizer with a
    cached result makes of it. *)
Definition placeholder (cur : option nat) : Span :=
  new_span "fixture teardown" (LocalSpan <$> cur) ∅.

Definition finalized (fd : FixtureDef * SubRequest) (s : Span) : Span :=
  span_mark_ended
    (span_set_attributes (fixture_attributes fd.1 fd.2 "fixture teardown")
       (span_update_name (argname fd.1 +:+ " teardown") s)).

(** A process after [pytest_configure] and [pytest_sessionstart]. *)
Definition started_world : World :=
  (notify_all [Configure (mkConfig None None false); SessionStart]
     (fresh_world OpenTelemetryPlugin false ∅)).2.

(** Whether a notification tree holds a session start, a report of a failed
    call phase, a call-phase hook. *)
Fixpoint mentions_session_start (n : Notification) : bool :=
  match n with
  | SessionStart => true
  | RuntestProtocol _ inner | RuntestSetup _ inner | RuntestCall _ inner
  | RuntestTeardown _ inner | FixtureSetup _ _ inner
  | FixturePostFinalizer _ _ inner => existsb mentions_session_start inner
  | _ => false
  end.

Definition reports_call_failure (report : TestReport) : bool :=
  String.eqb (when report) "call" && String.eqb (outcome report) "failed".

Fixpoint mentions_call_failure (n : Notification) : bool :=
  match n with
  | RuntestLogreport report => reports_call_failure report
  | RuntestProtocol _ inner | RuntestSetup _ inner | RuntestCall _ inner
  | RuntestTeardown _ inner | FixtureSetup _ _ inner
  | FixturePostFinalizer _ _ inner => existsb mentions_call_failure inner
  | _ => false
  end.

Fixpoint mentions_call (n : Notification) : bool :=
  match n with
  | RuntestCall _ _ => true
  | RuntestProtocol _ inner | RuntestSetup _ inner
  | RuntestTeardown _ inner | FixtureSetup _ _ inner
  | FixturePostFinalizer _ _ inner => existsb mentions_call inner
  | _ => false
  end.

(** A span that is not the span of a call phase. *)
Definition not_call_span (s : Span) : Prop :=
  sp_attributes s !! PYTEST_SPAN_TYPE ≠ Some (AStr "test call").

(** No span created from index [n0] on is the span of a call phase. *)
Definition no_call_span_since (n0 : nat) (w : World) : Prop :=
  ∀ i s, (n0 ≤ i)%nat → span_of w i = Some s → not_call_span s.

(** The line-number attribute a span is to carry for a line number that may
    be missing. *)
Definition lineno_attribute (line : option Z) : option AttrValue :=
  match line with
  | Some n => if decide (n = 0%Z) then None else Some (AInt n)
  | None => None
  end.

Definition item_line (item : Item) : option Z := (item_location item).1.2.

Definition fixture_line (fixturedef : FixtureDef) : option Z :=
  if has_location fixturedef then Some (fslineno fixturedef).2 else None.

(** A world after one more placeholder was started and stored in the
    plugin. *)
Definition reopened (w : World) : World :=
  {| plugin := set_fixture_teardown_span (Some (length (spans (tracer w))))
                 (plugin w);
     tracer := with_spans (λ l, l ++ [placeholder (current_span (tracer w))])
                 (tracer w);
     environ := environ w |}.

(** A span as [tracer.start_span("fixture teardown")] left it. *)
Definition untouched_placeholder (s : Span) : Prop :=
  sp_name s = "fixture teardown" ∧ sp_attributes s = ∅.

(** ** Properties of hook code *)

(** Hook code that leaves a property of the world alone, also when it
    raises. *)
Definition preserves {A} (P : World → Prop) (m : M A) : Prop :=
  ∀ w, P w → P (m w).2.

(** Properties that only read the plugin's error flag. *)
Definition flag_is (v : option bool) (w : World) : Prop :=
  has_error (plugin w) = v.

(** What a notification tree without a session start does to the flag. *)
Definition flag_effect (run : M unit) (failure : bool) : Prop :=
  ∀ w b, has_error (plugin w) = Some b →
    ∃ b', has_error (plugin (run w).2) = Some b' ∧
          (b' = b ∨ (b' = true ∧ failure = true)) ∧
          ((run w).1 = Ok tt → b' = b || failure).

(** Properties that only read the ambient current span. *)
Definition current_is (c : option nat) (w : World) : Prop :=
  current_span (tracer w) = c.

(** Whether the call phase of an item failed. *)
Definition verdict_failed (v : Verdict) : bool :=
  match v with Failed _ _ => true | _ => false end.

(** A run: the session start, the items, the session finish. *)
Definition run_of (items : list Notification) : list Notification :=
  SessionStart :: items ++ [SessionFinish].

Definition items_without_fixtures (ivs : list (Item * Verdict))
    : list Notification :=
  (λ iv, item_without_fixtures iv.1 iv.2) <$> ivs.

(** A fixture definition once the runner has dropped its cached result. *)
Definition without_cache (fixturedef : FixtureDef) : FixtureDef :=
  {| argname := argname fixturedef; cached_result := None;
     has_location := has_location fixturedef;
     fslineno := fslineno fixturedef |}.

(** A passing item that uses fixture [b], which depends on fixture [a]: the
    runner sets up [a], then [b]; in the teardown phase it finalizes [b],
    then, while it finalizes [a], [b] once more. *)
Definition item_with_two_fixtures (item : Item) (a b : FixtureDef)
    (request : SubRequest) : Notification :=
  RuntestProtocol item
    (RuntestSetup item [FixtureSetup a request []; FixtureSetup b request []]
       :: phase_end "setup" Passed ++
     RuntestCall item [] :: phase_end "call" Passed ++
     RuntestTeardown item
       [FixturePostFinalizer b request [];
        FixturePostFinalizer (without_cache b) request [];
        FixturePostFinalizer a request []]
       :: phase_end "teardown" Passed).

(** The name a run gets: the one the plugin already holds, else the value
    of [PYTEST_RUN_NAME], else "test run". *)
Definition run_name (p : Plugin) (env : gmap string string) : string :=
  match _session_name p with
  | Some name => name
  | None => default "test run" (env !! "PYTEST_RUN_NAME")
  end.

(** The plugin once the name of the run was read. *)
Definition named (p : Plugin) (env : gmap string string) : Plugin :=
  match _session_name p with
  | Some _ => p
  | None => set_session_name (Some (run_name p env)) p
  end.

(** A world after a hook wrapper started a span under the current span,
    made it current, and ended it on its way out. *)
Definition bracketed (name : string) (attributes : gmap string AttrValue)
    (w : World) : World :=
  {| plugin := plugin w;
     tracer :=
       {| spans := spans (tracer w) ++
                   [span_mark_ended
                      (new_span name (LocalSpan <$> current_span (tracer w))
                         attributes)];
          reported := reported (tracer w) ++ [length (spans (tracer w))];
          current_span := current_span (tracer w);
          has_force_flush := has_force_flush (tracer w);
          flushes := flushes (tracer w) |};
     environ := environ w |}.

(** The attributes of a span but for the kind of the span. *)
Definition location_attributes (s : Span) : gmap string AttrValue :=
  delete PYTEST_SPAN_TYPE (sp_attributes s).

(** ** Sample inputs *)

Definition sample_item : Item :=
  mkItem "test_one" "test_sample.py::test_one" ("test_sample.py", Some 7%Z, "test_one").

Definition sample_request : SubRequest :=
  mkSubRequest (mkPath "/" ["repo"]).

Definition sample_fixture (name : string) (cached : option CachedResult)
    : FixtureDef * SubRequest :=
  (mkFixtureDef name cached true (mkPath "/" ["repo"; "test_sample.py"], 3%Z),
   sample_request).

(** Two headers as a tracing library writes them. *)
Definition sample_traceparent : string :=
  "00-0af7651916cd43dd8448eb211c80319c-b7ad6b7169203331-01".

Definition other_traceparent : string :=
  "00-4bf92f3577b34da6a3ce929d0e0e4736-00f067aa0ba902b7-00".

(** A process after [pytest_configure]. *)
Definition configured_world : World :=
  (notify (Configure (mkConfig None None false))
     (fresh_world OpenTelemetryPlugin false ∅)).2.

(** A process in the teardown phase of an item: the test span and the
    teardown span are open and the plugin holds the placeholder. *)
Definition teardown_world : World :=
  (pytest_runtest_teardown_enter sample_item
     (pytest_runtest_protocol_enter sample_item started_world).2).2.

(** Fixture B depends on fixture A: B is finalized first, and once more,
    without a cached result, when A is. *)
Definition sample_finalizations : list (FixtureDef * SubRequest) :=
  [sample_fixture "B" (Some Cached); sample_fixture "B" None;
   sample_fixture "A" (Some Cached)].

Definition sample_exception : ExceptionInfo :=
  mkExceptionInfo "<class 'AssertionError'>" "AssertionError"
    "assert 4 == 5" "Traceback (most recent call last)".

(** ** Reasoning tools *)

(** Induction over notification trees: the inner notifications of a hook
    wrapper come with their hypotheses. *)
Section NotificationInd.
Variable P : Notification → Prop.
Hypothesis HConfigure : ∀ config, P (Configure config).
Hypothesis HSessionStart : P SessionStart.
Hypothesis HSessionFinish : P SessionFinish.
Hypothesis HProtocol : ∀ item inner, Forall P inner → P (RuntestProtocol item inner).
Hypothesis HSetup : ∀ item inner, Forall P inner → P (RuntestSetup item inner).
Hypothesis HCall : ∀ item inner, Forall P inner → P (RuntestCall item inner).
Hypothesis HTeardown : ∀ item inner, Forall P inner → P (RuntestTeardown item inner).
Hypothesis HFixtureSetup : ∀ fd rq inner, Forall P inner → P (FixtureSetup fd rq inner).
Hypothesis HFinalizer : ∀ fd rq inner, Forall P inner → P (FixturePostFinalizer fd rq inner).
Hypothesis HInteract : ∀ call report, P (ExceptionInteract call report).
Hypothesis HLogreport : ∀ report, P (RuntestLogreport report).

Fixpoint Notification_nested_ind (n : Notification) : P n :=
  let all := fix all (l : list Notification) : Forall P l :=
    match l with
    | [] => Forall_nil_2 P
    | x :: l' => Forall_cons_2 P x l' (Notification_nested_ind x) (all l')
    end in
  match n with
  | Configure config => HConfigure config
  | SessionStart => HSessionStart
  | SessionFinish => HSessionFinish
  | RuntestProtocol item inner => HProtocol item inner (all inner)
  | RuntestSetup item inner => HSetup item inner (all inner)
  | RuntestCall item inner => HCall item inner (all inner)
  | RuntestTeardown item inner => HTeardown item inner (all inner)
  | FixtureSetup fd rq inner => HFixtureSetup fd rq inner (all inner)
  | FixturePostFinalizer fd rq inner => HFinalizer fd rq inner (all inner)
  | ExceptionInteract call report => HInteract call report
  | RuntestLogreport report => HLogreport report
  end.
End NotificationInd.

(** Spans created after a store [ss] live at [length ss + k]. *)
Lemma lookup_fresh {A} (ss l : list A) k : (ss ++ l) !! (length ss + k) = l !! k.
Proof. rewrite lookup_app_r by lia. f_equal. lia. Qed.

Lemma lookup_fresh0 {A} (ss l : list A) : (ss ++ l) !! length ss = l !! 0.
Proof. rewrite <- (lookup_fresh ss l 0). f_equal. lia. Qed.

Lemma alter_fresh {A} (f : A → A) (ss l : list A) k :
  alter f (length ss + k) (ss ++ l) = ss ++ alter f k l.
Proof. apply alter_app_r. Qed.

Lemma alter_fresh0 {A} (f : A → A) (ss l : list A) :
  alter f (length ss) (ss ++ l) = ss ++ alter f 0 l.
Proof. rewrite <- (alter_fresh f ss l 0). f_equal. lia. Qed.

Lemma insert_fresh {A} (x : A) (ss l : list A) k :
  <[length ss + k := x]> (ss ++ l) = ss ++ <[k := x]> l.
Proof. apply insert_app_r. Qed.

Lemma insert_fresh0 {A} (x : A) (ss l : list A) :
  <[length ss := x]> (ss ++ l) = ss ++ <[0 := x]> l.
Proof. rewrite <- (insert_fresh x ss l 0). f_equal. lia. Qed.

Lemma length_fresh {A} (ss l : list A) : length (ss ++ l) = length ss + length l.
Proof. apply length_app. Qed.

Lemma fresh_nil {A} (ss : list A) : ss = ss ++ [].
Proof. by rewrite app_nil_r. Qed.

(** The tracer's operations on a store [ss ++ l], at the spans of [l]. *)
Lemma start_span_fresh name context attributes ss l rep cur ff fl :
  tracer_start_span name context attributes (mkTracer (ss ++ l) rep cur ff fl) =
  (length ss + length l,
   mkTracer (ss ++ (l ++ [new_span name
                            (match context with
                             | Some c => c
                             | None => LocalSpan <$> cur
                             end) attributes])) rep cur ff fl).
Proof.
  unfold tracer_start_span, with_spans. cbn. by rewrite length_app, app_assoc.
Qed.

Lemma update_fresh k f ss l rep cur ff fl :
  tracer_update (length ss + k) f (mkTracer (ss ++ l) rep cur ff fl) =
  mkTracer (ss ++ alter (while_recording f) k l) rep cur ff fl.
Proof. unfold tracer_update, with_spans. cbn. by rewrite alter_fresh. Qed.

Lemma end_fresh k s ss l rep cur ff fl :
  l !! k = Some s → sp_ended s = false →
  tracer_end (length ss + k) (mkTracer (ss ++ l) rep cur ff fl) =
  mkTracer (ss ++ <[k := span_mark_ended s]> l) (rep ++ [length ss + k]) cur ff fl.
Proof.
  intros Hs He. unfold tracer_end. cbn. rewrite lookup_fresh, Hs, He.
  by rewrite insert_fresh.
Qed.

(** Running hook code. *)
Lemma bind_ok {A B} (m : M A) (k : A → M B) w a w1 r :
  m w = (Ok a, w1) → k a w1 = r → bind m k w = r.
Proof. intros Hm Hk. unfold bind. by rewrite Hm. Qed.

Lemma bind_raised {A B} (m : M A) (k : A → M B) w e w1 :
  m w = (Raised e, w1) → bind m k w = (Raised e, w1).
Proof. intros Hm. unfold bind. by rewrite Hm. Qed.

Lemma bind_inv {A B} (m : M A) (k : A → M B) w b w2 :
  bind m k w = (Ok b, w2) → ∃ a w1, m w = (Ok a, w1) ∧ k a w1 = (Ok b, w2).
Proof.
  unfold bind. destruct (m w) as [[a|e] w1]; [eauto | discriminate].
Qed.

Lemma hookwrapper_ok {F} (enter : M F) (exit : F → M unit) (inner : M unit)
    w frame w1 w2 r :
  enter w = (Ok frame, w1) → inner w1 = (Ok tt, w2) → exit frame w2 = r →
  hookwrapper enter exit inner w = r.
Proof.
  intros He Hi Hx. unfold hookwrapper.
  eapply bind_ok; [exact He|]. unfold after_outcome. by rewrite Hi.
Qed.

Lemma hookwrapper_inv {F} (enter : M F) (exit : F → M unit) (inner : M unit)
    w w' :
  hookwrapper enter exit inner w = (Ok tt, w') →
  ∃ frame w1 w2,
    enter w = (Ok frame, w1) ∧ inner w1 = (Ok tt, w2) ∧
    exit frame w2 = (Ok tt, w').
Proof.
  unfold hookwrapper. intros (frame & w1 & Henter & Hrun)%bind_inv.
  exists frame, w1. unfold after_outcome in Hrun.
  destruct (inner w1) as [[[]|e] w2].
  - by exists w2.
  - by destruct (exit frame w2) as [[[]|e'] w3].
Qed.

Lemma in_order_cons_ok (m : M unit) ms w w1 r :
  m w = (Ok tt, w1) → in_order ms w1 = r → in_order (m :: ms) w = r.
Proof. intros Hm Hr. cbn [in_order]. eapply bind_ok; eauto. Qed.

Lemma in_order_app_ok ms1 ms2 w w1 r :
  in_order ms1 w = (Ok tt, w1) → in_order ms2 w1 = r →
  in_order (ms1 ++ ms2) w = r.
Proof.
  revert w. induction ms1 as [|m ms1 IH]; intros w H1 H2.
  - cbn in H1. by inversion H1; subst.
  - cbn [app in_order] in *. apply bind_inv in H1 as ([] & w' & Hm & H1).
    eapply bind_ok; eauto.
Qed.

(** The span operations on a world whose store is [ss ++ l]. *)
Section SpansOnFresh.
Variables (p : Plugin) (ss l : list Span) (rep : list nat) (cur : option nat).
Variables (ff : bool) (fl : nat) (env : gmap string string).

Let here := mkWorld p (mkTracer (ss ++ l) rep cur ff fl) env.

Lemma start_as_current_span_fresh name context attributes :
  start_as_current_span name context attributes here =
  (Ok (length ss + length l, cur),
   mkWorld p
     (mkTracer
        (ss ++ (l ++ [new_span name
                        (match context with
                         | Some c => c
                         | None => LocalSpan <$> cur
                         end) attributes]))
        rep (Some (length ss + length l)) ff fl) env).
Proof.
  unfold start_as_current_span, start_span, bind, on_tracer, here. cbn.
  by rewrite length_app, app_assoc.
Qed.

Lemma exit_current_span_fresh k token s :
  l !! k = Some s → sp_ended s = false →
  exit_current_span (length ss + k, token) here =
  (Ok tt,
   mkWorld p
     (mkTracer (ss ++ <[k := span_mark_ended s]> l)
        (rep ++ [length ss + k]) token ff fl) env).
Proof.
  intros Hs He.
  unfold exit_current_span, bind, on_tracer_, on_tracer, here. cbn.
  unfold tracer_end. cbn. by rewrite lookup_fresh, Hs, He, insert_fresh.
Qed.

Lemma start_span_on_fresh name attributes :
  start_span name None attributes here =
  (Ok (length ss + length l),
   mkWorld p
     (mkTracer (ss ++ (l ++ [new_span name (LocalSpan <$> cur) attributes]))
        rep cur ff fl) env).
Proof. unfold start_span, on_tracer, here. cbn. by rewrite length_app, app_assoc. Qed.

Lemma on_span_fresh k f :
  on_span (Some (length ss + k)) f here =
  (Ok tt,
   mkWorld p
     (mkTracer (ss ++ alter (while_recording f) k l) rep cur ff fl) env).
Proof. unfold on_span, on_tracer_, on_tracer, here. cbn. by rewrite update_fresh. Qed.

Lemma end_span_fresh k s :
  l !! k = Some s → sp_ended s = false →
  on_tracer_ (tracer_end (length ss + k)) here =
  (Ok tt,
   mkWorld p
     (mkTracer (ss ++ <[k := span_mark_ended s]> l)
        (rep ++ [length ss + k]) cur ff fl) env).
Proof.
  intros Hs He. unfold on_tracer_, on_tracer, here. cbn.
  unfold tracer_end. cbn. by rewrite lookup_fresh, Hs, He, insert_fresh.
Qed.

End SpansOnFresh.

(** The hooks on a world whose store is [ss ++ l]. *)
Section HooksOnFresh.
Variables (p : Plugin) (ss l : list Span) (rep : list nat) (cur : option nat).
Variables (ff : bool) (fl : nat) (env : gmap string string).

Let here := mkWorld p (mkTracer (ss ++ l) rep cur ff fl) env.

Lemma runtest_protocol_enter_fresh item sid :
  session_span p = Some sid →
  pytest_runtest_protocol_enter item here =
  (Ok (length ss + length l, cur),
   mkWorld p
     (mkTracer
        (ss ++ (l ++ [new_span (item_name item) (Some (LocalSpan sid))
                        (item_attributes item "test")]))
        rep (Some (length ss + length l)) ff fl) env).
Proof.
  intros Hsid. unfold pytest_runtest_protocol_enter.
  eapply bind_ok.
  - unfold getattr, here. cbn. by rewrite Hsid.
  - apply start_as_current_span_fresh.
Qed.

Lemma runtest_teardown_enter_fresh item :
  pytest_runtest_teardown_enter item here =
  (Ok (length ss + length l, cur),
   mkWorld (set_fixture_teardown_span (Some (length ss + S (length l))) p)
     (mkTracer
        (ss ++ (l ++ [new_span (item_name item +:+ " teardown")
                        (LocalSpan <$> cur)
                        (item_attributes item "test teardown");
                      new_span "fixture teardown"
                        (Some (LocalSpan (length ss + length l))) ∅]))
        rep (Some (length ss + length l)) ff fl) env).
Proof.
  unfold pytest_runtest_teardown_enter.
  eapply bind_ok; [apply start_as_current_span_fresh|].
  eapply bind_ok.
  - apply start_span_on_fresh.
  - unfold bind, on_plugin, ret. cbn.
    rewrite length_app, <- app_assoc. cbn.
    by replace (length l + 1) with (S (length l)) by lia.
Qed.

Lemma runtest_teardown_exit_fresh k token s slot :
  l !! k = Some s → sp_ended s = false →
  fixture_teardown_span p = Some slot →
  pytest_runtest_teardown_exit (length ss + k, token) here =
  (Ok tt,
   mkWorld (set_fixture_teardown_span None p)
     (mkTracer (ss ++ <[k := span_mark_ended s]> l)
        (rep ++ [length ss + k]) token ff fl) env).
Proof.
  intros Hs He Hslot. unfold pytest_runtest_teardown_exit.
  eapply bind_ok; [by apply exit_current_span_fresh|].
  eapply bind_ok; [unfold getattr; cbn; by rewrite Hslot|].
  reflexivity.
Qed.

Lemma fixture_post_finalizer_enter_named fixturedef request k c :
  fixture_teardown_span p = Some (length ss + k) →
  cached_result fixturedef = Some c →
  pytest_fixture_post_finalizer_enter fixturedef request here =
  (Ok AtYieldNamed,
   mkWorld p
     (mkTracer
        (ss ++ alter
                 (while_recording
                    (span_set_attributes
                       (fixture_attributes fixturedef request "fixture teardown")))
                 k
                 (alter (while_recording
                           (span_update_name (argname fixturedef +:+ " teardown")))
                    k l))
        rep cur ff fl) env).
Proof.
  intros Hslot Hc. unfold pytest_fixture_post_finalizer_enter.
  eapply bind_ok; [unfold hasattr; cbn; by rewrite Hslot|].
  cbn. rewrite Hc.
  eapply bind_ok; [unfold getattr; cbn; by rewrite Hslot|].
  eapply bind_ok; [apply on_span_fresh|].
  eapply bind_ok; [unfold getattr; cbn; by rewrite Hslot|].
  eapply bind_ok; [apply on_span_fresh|].
  reflexivity.
Qed.

Lemma fixture_post_finalizer_enter_no_cache fixturedef request slot :
  fixture_teardown_span p = Some slot →
  cached_result fixturedef = None →
  pytest_fixture_post_finalizer_enter fixturedef request here =
  (Ok AtYieldNoCache, here).
Proof.
  intros Hslot Hc. unfold pytest_fixture_post_finalizer_enter.
  eapply bind_ok; [unfold hasattr; cbn; by rewrite Hslot|].
  cbn. by rewrite Hc.
Qed.

Lemma fixture_post_finalizer_exit_reopen frame :
  frame = AtYieldNoSpan ∨ frame = AtYieldNoCache →
  pytest_fixture_post_finalizer_exit frame here =
  (Ok tt,
   mkWorld (set_fixture_teardown_span (Some (length ss + length l)) p)
     (mkTracer (ss ++ (l ++ [new_span "fixture teardown" (LocalSpan <$> cur) ∅]))
        rep cur ff fl) env).
Proof.
  intros [-> | ->]; unfold pytest_fixture_post_finalizer_exit;
    (eapply bind_ok; [apply start_span_on_fresh|]); reflexivity.
Qed.

Lemma fixture_post_finalizer_exit_named k s :
  fixture_teardown_span p = Some (length ss + k) →
  l !! k = Some s → sp_ended s = false →
  pytest_fixture_post_finalizer_exit AtYieldNamed here =
  (Ok tt,
   mkWorld (set_fixture_teardown_span (Some (length ss + length l)) p)
     (mkTracer
        (ss ++ (<[k := span_mark_ended s]> l
                ++ [new_span "fixture teardown" (LocalSpan <$> cur) ∅]))
        (rep ++ [length ss + k]) cur ff fl) env).
Proof.
  intros Hslot Hs He. unfold pytest_fixture_post_finalizer_exit.
  eapply bind_ok; [unfold getattr; cbn; by rewrite Hslot|].
  eapply bind_ok; [by apply end_span_fresh|].
  eapply bind_ok; [apply start_span_on_fresh|].
  unfold on_plugin. cbn. by rewrite length_insert.
Qed.

Lemma runtest_logreport_other report :
  String.eqb (when report) "call" = false →
  pytest_runtest_logreport report here = (Ok tt, here).
Proof. intros Hw. unfold pytest_runtest_logreport. by rewrite Hw. Qed.
End HooksOnFresh.

Lemma exception_interact_fresh p ss l rep k ff fl env e report :
  pytest_exception_interact (mkCallInfo (Some e)) report
    (mkWorld p (mkTracer (ss ++ l) rep (Some (length ss + k)) ff fl) env) =
  (Ok tt,
   mkWorld p
     (mkTracer
        (ss ++ alter
                 (while_recording
                    (span_set_status
                       (mkStatus ERROR
                          (Some (exc_type_str e +:+ ": " +:+ exc_value_str e)))))
                 k
                 (alter
                    (while_recording
                       (span_add_event
                          (exception_event e
                             (<[EXCEPTION_STACKTRACE := AStr (longrepr report)]> ∅))))
                    k l))
        rep (Some (length ss + k)) ff fl) env).
Proof.
  unfold pytest_exception_interact. cbn [excinfo].
  eapply bind_ok; [reflexivity|]. cbn [current_span tracer].
  eapply bind_ok; [apply on_span_fresh|].
  apply on_span_fresh.
Qed.

Lemma runtest_logreport_call p ss l rep k ff fl env report b :
  String.eqb (when report) "call" = true →
  has_error p = Some b →
  pytest_runtest_logreport report
    (mkWorld p (mkTracer (ss ++ l) rep (Some (length ss + k)) ff fl) env) =
  (Ok tt,
   mkWorld (set_has_error (Some (b || String.eqb (outcome report) "failed")) p)
     (mkTracer
        (ss ++ alter
                 (while_recording
                    (span_set_status
                       (mkStatus
                          (if String.eqb (outcome report) "failed"
                           then ERROR else OK) None)))
                 k l)
        rep (Some (length ss + k)) ff fl) env).
Proof.
  intros Hw Hb. unfold pytest_runtest_logreport. rewrite Hw. cbn [negb].
  eapply bind_ok; [unfold getattr; cbn; by rewrite Hb|].
  eapply bind_ok; [reflexivity|].
  eapply bind_ok; [reflexivity|]. cbn [current_span tracer].
  apply on_span_fresh.
Qed.


Ltac side_condition :=
  first [ reflexivity | eassumption | (cbn; eassumption) | (cbn; reflexivity) ].

(** Solves [code world = (?result, ?world')] for hook code that runs on a
    world whose store is [ss ++ l] with [l] spelled out. *)
Ltac run_step :=
  lazymatch goal with
  | |- notify_all _ _ = _ => unfold notify_all; cbn [map notify app]
  | |- notify _ _ = _ => cbn [notify map app]
  | |- in_order [] _ = _ => reflexivity
  | |- in_order (_ :: _) _ = _ => eapply in_order_cons_ok
  | |- hookwrapper _ _ _ _ = _ => eapply hookwrapper_ok
  | |- pytest_runtest_protocol_enter _ _ = _ =>
      eapply runtest_protocol_enter_fresh; side_condition
  | |- pytest_runtest_protocol_exit _ _ = _ =>
      eapply exit_current_span_fresh; side_condition
  | |- pytest_runtest_setup_enter _ _ = _ =>
      unfold pytest_runtest_setup_enter; eapply start_as_current_span_fresh
  | |- pytest_runtest_setup_exit _ _ = _ =>
      eapply exit_current_span_fresh; side_condition
  | |- pytest_runtest_call_enter _ _ = _ =>
      unfold pytest_runtest_call_enter; eapply start_as_current_span_fresh
  | |- pytest_runtest_call_exit _ _ = _ =>
      eapply exit_current_span_fresh; side_condition
  | |- pytest_runtest_teardown_enter _ _ = _ =>
      eapply runtest_teardown_enter_fresh
  | |- pytest_runtest_teardown_exit _ _ = _ =>
      eapply runtest_teardown_exit_fresh; side_condition
  | |- pytest_fixture_setup_enter _ _ _ = _ =>
      unfold pytest_fixture_setup_enter; eapply start_as_current_span_fresh
  | |- pytest_fixture_setup_exit _ _ = _ =>
      eapply exit_current_span_fresh; side_condition
  | |- pytest_fixture_post_finalizer_enter _ _ _ = _ =>
      first [ eapply fixture_post_finalizer_enter_named; side_condition
            | eapply fixture_post_finalizer_enter_no_cache; side_condition ]
  | |- pytest_fixture_post_finalizer_exit AtYieldNamed _ = _ =>
      eapply fixture_post_finalizer_exit_named; side_condition
  | |- pytest_fixture_post_finalizer_exit _ _ = _ =>
      eapply fixture_post_finalizer_exit_reopen; auto
  | |- pytest_exception_interact _ _ _ = _ => eapply exception_interact_fresh
  | |- pytest_runtest_logreport _ _ = _ =>
      first [ eapply runtest_logreport_other; side_condition
            | eapply runtest_logreport_call; side_condition ]
  end.

Ltac run_hooks := repeat run_step.


Lemma world_fresh p ss rep cur ff fl env :
  mkWorld p (mkTracer ss rep cur ff fl) env =
  mkWorld p (mkTracer (ss ++ []) rep cur ff fl) env.
Proof. by rewrite app_nil_r. Qed.

Lemma item_attributes_span_type item span_type :
  item_attributes item span_type !! PYTEST_SPAN_TYPE = Some (AStr span_type).
Proof.
  unfold item_attributes. destruct (item_location item) as [[filepath [n|]] ?];
    [destruct (truthy_int n)|]; reflexivity.
Qed.

Lemma fixture_attributes_span_type fixturedef request span_type :
  fixture_attributes fixturedef request span_type !! PYTEST_SPAN_TYPE
  = Some (AStr span_type).
Proof.
  unfold fixture_attributes. destruct (has_location fixturedef); [|reflexivity].
  destruct (fslineno fixturedef) as [filepath n].
  destruct (truthy_int n); reflexivity.
Qed.

(** ** The fixture-teardown pipeline *)

Lemma set_slot_again a b p :
  set_fixture_teardown_span a (set_fixture_teardown_span b p)
  = set_fixture_teardown_span a p.
Proof. reflexivity. Qed.

Lemma finalized_label fd cur :
  span_label (finalized fd (placeholder cur))
  = (argname fd.1 +:+ " teardown", Some (AStr "fixture teardown")).
Proof.
  unfold span_label, finalized. cbn.
  rewrite lookup_union_l'; rewrite fixture_attributes_span_type; eauto.
Qed.

Lemma insert_alter_same {A} (f : A → A) (x : A) (l : list A) k :
  <[k := x]> (alter f k l) = <[k := x]> l.
Proof.
  revert k. induction l as [|a l IH]; intros [|k]; cbn; try done.
  by rewrite IH.
Qed.

Lemma alter_recording (k : nat) f (l : list Span) (s : Span) :
  l !! k = Some s → sp_ended s = false →
  alter (while_recording f) k l !! k = Some (f s).
Proof.
  intros Hs He. rewrite list_lookup_alter_eq, Hs. cbn.
  unfold while_recording. by rewrite He.
Qed.

(** [set_status] touches the status only. *)
Lemma set_status_ended st s : sp_ended (span_set_status st s) = sp_ended s.
Proof.
  unfold span_set_status.
  by destruct (status_code (sp_status s)), (status_code st).
Qed.

Lemma set_status_events st s : sp_events (span_set_status st s) = sp_events s.
Proof.
  unfold span_set_status.
  by destruct (status_code (sp_status s)), (status_code st).
Qed.

Lemma set_status_attributes st s :
  sp_attributes (span_set_status st s) = sp_attributes s.
Proof.
  unfold span_set_status.
  by destruct (status_code (sp_status s)), (status_code st).
Qed.

Lemma set_status_name st s : sp_name (span_set_status st s) = sp_name s.
Proof.
  unfold span_set_status.
  by destruct (status_code (sp_status s)), (status_code st).
Qed.

Lemma set_status_parent st s : sp_parent (span_set_status st s) = sp_parent s.
Proof.
  unfold span_set_status.
  by destruct (status_code (sp_status s)), (status_code st).
Qed.

(** It takes effect unless the status is already OK or the new one is
    UNSET. *)
Lemma set_status_takes st s :
  status_code (sp_status s) ≠ OK → status_code st ≠ UNSET →
  sp_status (span_set_status st s) = st.
Proof.
  unfold span_set_status.
  by destruct (status_code (sp_status s)), (status_code st).
Qed.

Lemma set_status_final st s :
  status_code (sp_status s) = OK → span_set_status st s = s.
Proof. unfold span_set_status. by intros ->. Qed.

Lemma notify_all_cons n ns w :
  notify_all (n :: ns) w = bind (notify n) (λ _, notify_all ns) w.
Proof. reflexivity. Qed.

(** One finalizer notification on an open, untouched placeholder. *)
Lemma finalizer_step fd p ss l rep cur ff fl env k :
  fixture_teardown_span p = Some (length ss + k) →
  l !! k = Some (placeholder cur) →
  notify (FixturePostFinalizer fd.1 fd.2 [])
    (mkWorld p (mkTracer (ss ++ l) rep cur ff fl) env) =
  (Ok tt,
   mkWorld (set_fixture_teardown_span (Some (length ss + length l)) p)
     (mkTracer
        (ss ++ ((if decide (has_cached_result fd)
                 then <[k := finalized fd (placeholder cur)]> l else l)
                ++ [placeholder cur]))
        (rep ++ (if decide (has_cached_result fd) then [length ss + k] else []))
        cur ff fl) env).
Proof.
  intros Hslot Hk. cbn [notify map].
  destruct (decide (has_cached_result fd)) as [[c Hc]|Hc].
  - eapply hookwrapper_ok.
    + by eapply fixture_post_finalizer_enter_named.
    + reflexivity.
    + erewrite fixture_post_finalizer_exit_named; [| done | |].
      * rewrite !length_alter, !insert_alter_same. reflexivity.
      * apply alter_recording; [|reflexivity].
        by apply alter_recording.
      * reflexivity.
  - assert (cached_result fd.1 = None) as Hnone.
    { destruct (cached_result fd.1) eqn:E; [|done]. destruct Hc. by eexists. }
    eapply hookwrapper_ok.
    + by eapply fixture_post_finalizer_enter_no_cache.
    + reflexivity.
    + rewrite fixture_post_finalizer_exit_reopen by auto.
      by rewrite app_nil_r.
Qed.

(** Any sequence of finalizer notifications: the notifications with a cached
    result each end one span, in their order, and an untouched placeholder
    is left open. *)
Lemma finalizers_run fds : ∀ p ss l rep cur ff fl env k,
  fixture_teardown_span p = Some (length ss + k) →
  l !! k = Some (placeholder cur) →
  ∃ l' ids k',
    notify_all (finalizers fds)
      (mkWorld p (mkTracer (ss ++ l) rep cur ff fl) env) =
    (Ok tt,
     mkWorld (set_fixture_teardown_span (Some (length ss + k')) p)
       (mkTracer (ss ++ l') (rep ++ ids) cur ff fl) env) ∧
    l' !! k' = Some (placeholder cur) ∧
    (∀ j, (j < k)%nat → l' !! j = l !! j) ∧
    Forall2 (λ i fd, ∃ j, i = length ss + j ∧ (k ≤ j)%nat ∧
                          l' !! j = Some (finalized fd (placeholder cur)))
      ids (filter has_cached_result fds).
Proof.
  induction fds as [|fd fds IH]; intros p ss l rep cur ff fl env k Hslot Hk.
  - exists l, [], k. split_and!; [|done|done|constructor].
    cbn. rewrite app_nil_r. destruct p; cbn in *. by rewrite Hslot.
  - pose proof (lookup_lt_Some _ _ _ Hk) as Hlt.
    pose proof (finalizer_step fd p ss l rep cur ff fl env k Hslot Hk) as Hstep.
    set (l1 := (if decide (has_cached_result fd)
                then <[k := finalized fd (placeholder cur)]> l else l)) in *.
    set (ids1 := (if decide (has_cached_result fd)
                  then [length ss + k] else [])) in *.
    assert (length l1 = length l) as Hlen.
    { unfold l1. destruct (decide _); [apply length_insert | done]. }
    destruct (IH (set_fixture_teardown_span (Some (length ss + length l)) p)
                ss (l1 ++ [placeholder cur]) (rep ++ ids1)
                cur ff fl env (length l))
      as (l' & ids & k' & Hrun & Hk' & Hold & Hids).
    { reflexivity. }
    { rewrite <- Hlen. by rewrite list_lookup_middle. }
    exists l', (ids1 ++ ids), k'.
    split_and!.
    + change (finalizers (fd :: fds))
        with (FixturePostFinalizer fd.1 fd.2 [] :: finalizers fds).
      rewrite notify_all_cons. eapply bind_ok; [exact Hstep|].
      rewrite Hrun. by rewrite app_assoc.
    + exact Hk'.
    + intros j Hj. rewrite Hold by lia.
      rewrite lookup_app_l by lia. unfold l1.
      destruct (decide _); [|done]. by rewrite list_lookup_insert_ne by lia.
    + rewrite filter_cons. unfold ids1, l1 in *.
      destruct (decide (has_cached_result fd)) as [Hc|Hc].
      * cbn [app]. constructor.
        -- exists k. split_and!; [done|done|].
           rewrite Hold by lia. rewrite lookup_app_l by (rewrite length_insert; lia).
           by rewrite list_lookup_insert_eq.
        -- eapply Forall2_impl; [exact Hids|].
           intros i fd' (j & -> & Hle & Hj). exists j. split_and!; [done|lia|done].
      * cbn [app].
        eapply Forall2_impl; [exact Hids|].
        intros i fd' (j & -> & Hle & Hj). exists j. split_and!; [done|lia|done].
Qed.

(** The teardown phase of an item, with any finalizer notifications inside:
    what is reported are the finalized fixtures, in the order of their
    notifications, and then the phase span; the last placeholder is dropped
    from the plugin without having been ended. *)
Lemma teardown_phase_reports item fds (w : World) :
  let n := length (spans (tracer w)) in
  ∃ w' ids last,
    notify (RuntestTeardown item (finalizers fds)) w = (Ok tt, w') ∧
    reported (tracer w') = reported (tracer w) ++ ids ++ [n] ∧
    (λ i, span_label <$> span_of w' i) <$> ids =
      (λ fd, Some (argname fd.1 +:+ " teardown", Some (AStr "fixture teardown")))
        <$> filter has_cached_result fds ∧
    span_label <$> span_of w' n =
      Some (item_name item +:+ " teardown", Some (AStr "test teardown")) ∧
    span_of w' last = Some (placeholder (Some n)) ∧
    fixture_teardown_span (plugin w') = None.
Proof.
  destruct w as [p [ss rep cur ff fl] env]. cbn [tracer spans reported plugin].
  set (n := length ss).
  pose proof (runtest_teardown_enter_fresh p ss [] rep cur ff fl env item) as Hen.
  cbn [app length] in Hen. rewrite app_nil_r in Hen.
  set (td := new_span (item_name item +:+ " teardown") (LocalSpan <$> cur)
               (item_attributes item "test teardown")) in *.
  destruct (finalizers_run fds
              (set_fixture_teardown_span (Some (length ss + 1)) p) ss
              [td; placeholder (Some (length ss + 0))] rep
              (Some (length ss + 0)) ff fl env 1)
    as (l' & ids & k' & Hrun & Hk' & Hold & Hids); [reflexivity..|].
  assert (l' !! 0 = Some td) as Htd by (by rewrite Hold by lia).
  assert (0 < k') as Hk'0.
  { destruct k'; [|lia]. rewrite Htd in Hk'.
    assert (td = placeholder (Some (length ss + 0))) as Heq by congruence.
    apply (f_equal sp_attributes) in Heq. cbn in Heq.
    pose proof (item_attributes_span_type item "test teardown") as Hty.
    rewrite Heq in Hty. by rewrite lookup_empty in Hty. }
  eexists _, ids, (n + k'). split_and!.
  - cbn [notify]. eapply hookwrapper_ok; [exact Hen | exact Hrun |].
    eapply runtest_teardown_exit_fresh; [exact Htd | reflexivity | reflexivity].
  - cbn. rewrite Nat.add_0_r. by rewrite <- app_assoc.
  - unfold span_of. cbn [tracer spans].
    apply list_eq_Forall2. rewrite Forall2_fmap.
    eapply Forall2_impl; [exact Hids|].
    intros i fd (j & -> & Hle & Hj). cbn beta.
    rewrite lookup_fresh, list_lookup_insert_ne by lia.
    rewrite Hj. cbn. by rewrite finalized_label.
  - unfold span_of, n. cbn [tracer spans].
    rewrite lookup_fresh0, list_lookup_insert_eq by (by eapply lookup_lt_Some).
    cbn. unfold span_label. cbn. by rewrite item_attributes_span_type.
  - unfold span_of, n. cbn [tracer spans].
    rewrite lookup_fresh, list_lookup_insert_ne by lia.
    by rewrite Hk', Nat.add_0_r.
  - reflexivity.
Qed.

Lemma labelled_not_placeholder w i l :
  span_label <$> span_of w i = Some l → is_Some l.2 →
  ∀ s, span_of w i = Some s → ¬ untouched_placeholder s.
Proof.
  intros Hl [v Hv] s Hs [_ Hattrs]. rewrite Hs in Hl. cbn in Hl.
  inversion Hl as [Hl']. subst l. unfold span_label in Hv. cbn in Hv.
  by rewrite Hattrs, lookup_empty in Hv.
Qed.

(** ** The spans of one item *)

(** C1. A test uses fixtures A (which depends on nothing) and B (which
    depends on A).  Whatever finalizer notifications the runner sends in the
    teardown phase, as long as the ones that carry a cached result are B's
    and then A's, the spans reported during the phase are exactly
    "B teardown", "A teardown" and then the span of the phase itself; none of
    them is a placeholder left as it was started, and the plugin keeps no
    placeholder afterwards. *)
Theorem fixture_teardown_spans_B_then_A item fds (w : World) :
  (λ fd, argname fd.1) <$> filter has_cached_result fds = ["B"; "A"] →
  ∃ w' new,
    notify (RuntestTeardown item (finalizers fds)) w = (Ok tt, w') ∧
    reported (tracer w') = reported (tracer w) ++ new ∧
    (λ i, span_label <$> span_of w' i) <$> new =
      [Some ("B teardown", Some (AStr "fixture teardown"));
       Some ("A teardown", Some (AStr "fixture teardown"));
       Some (item_name item +:+ " teardown", Some (AStr "test teardown"))] ∧
    Forall (λ i, ∀ s, span_of w' i = Some s → ¬ untouched_placeholder s) new ∧
    fixture_teardown_span (plugin w') = None.
Proof.
  intros Hnames.
  destruct (teardown_phase_reports item fds w)
    as (w' & ids & last & Hrun & Hrep & Hids & Hphase & _ & Hslot).
  assert ((λ i, span_label <$> span_of w' i) <$>
            (ids ++ [length (spans (tracer w))]) =
          [Some ("B teardown", Some (AStr "fixture teardown"));
           Some ("A teardown", Some (AStr "fixture teardown"));
           Some (item_name item +:+ " teardown", Some (AStr "test teardown"))])
    as Hlabels.
  { rewrite fmap_app, Hids. cbn [fmap list_fmap]. rewrite Hphase.
    destruct (filter has_cached_result fds) as [|b [|a [|]]]; try discriminate.
    cbn in Hnames |- *. inversion Hnames as [[Hb Ha]]. by rewrite Hb, Ha. }
  exists w', (ids ++ [length (spans (tracer w))]). split_and!; try done.
  apply Forall_forall. intros i Hi.
  apply list_elem_of_lookup in Hi as [pos Hpos].
  pose proof (f_equal (λ l, l !! pos) Hlabels) as Hl. cbn beta in Hl.
  rewrite list_lookup_fmap, Hpos in Hl. cbn [fmap option_fmap option_map] in Hl.
  destruct pos as [|[|[|pos]]]; cbn in Hl; try discriminate;
    (eapply labelled_not_placeholder; [by inversion Hl | by eexists]).
Qed.

Lemma fixture_teardown_spans_B_then_A_witness :
  ∃ w' new,
    notify (RuntestTeardown sample_item (finalizers sample_finalizations))
      started_world = (Ok tt, w') ∧
    reported (tracer w') = reported (tracer started_world) ++ new ∧
    (λ i, span_label <$> span_of w' i) <$> new =
      [Some ("B teardown", Some (AStr "fixture teardown"));
       Some ("A teardown", Some (AStr "fixture teardown"));
       Some ("test_one teardown", Some (AStr "test teardown"))].
Proof.
  destruct (fixture_teardown_spans_B_then_A sample_item sample_finalizations
              started_world) as (w' & new & H1 & H2 & H3 & _).
  - reflexivity.
  - exists w', new. by split_and!.
Defined.





Lemma finalizer_exit_reopens frame (w : World) :
  frame = AtYieldNoSpan ∨ frame = AtYieldNoCache →
  pytest_fixture_post_finalizer_exit frame w = (Ok tt, reopened w).
Proof. by intros [-> | ->]. Qed.

(** C3. A finalizer notification for a fixture without a cached result: the
    part of the hook before the [yield] leaves the world as it is (the
    placeholder is not renamed, nothing is ended), and the part after it
    only starts a fresh placeholder and stores it: every span of the store
    is as before, nothing is reported, the new span is an unended
    placeholder.  When the plugin holds a placeholder, the hook is
    suspended in the branch that tested the cached result. *)
Theorem finalizer_without_cached_result fixturedef request (w : World) :
  cached_result fixturedef = None →
  ∃ frame,
    pytest_fixture_post_finalizer_enter fixturedef request w = (Ok frame, w) ∧
    (∀ w2, ∃ w3,
       pytest_fixture_post_finalizer_exit frame w2 = (Ok tt, w3) ∧
       spans (tracer w3)
         = spans (tracer w2) ++ [placeholder (current_span (tracer w2))] ∧
       reported (tracer w3) = reported (tracer w2) ∧
       fixture_teardown_span (plugin w3) = Some (length (spans (tracer w2)))) ∧
    notify (FixturePostFinalizer fixturedef request []) w = (Ok tt, reopened w) ∧
    (is_Some (fixture_teardown_span (plugin w)) → frame = AtYieldNoCache).
Proof.
  intros Hc.
  assert (∃ frame,
            pytest_fixture_post_finalizer_enter fixturedef request w = (Ok frame, w)
            ∧ (frame = AtYieldNoSpan ∨ frame = AtYieldNoCache)
            ∧ (is_Some (fixture_teardown_span (plugin w)) →
               frame = AtYieldNoCache))
    as (frame & Hen & Hframe & Hheld).
  { unfold pytest_fixture_post_finalizer_enter, bind, hasattr.
    destruct (fixture_teardown_span (plugin w)); cbn.
    - rewrite Hc. eauto.
    - eexists. split_and!; [reflexivity | by left |].
      by intros [? ?]. }
  exists frame. split_and!.
  - exact Hen.
  - intros w2. exists (reopened w2). by rewrite finalizer_exit_reopens.
  - cbn [notify map]. eapply hookwrapper_ok; [exact Hen | reflexivity |].
    by apply finalizer_exit_reopens.
  - exact Hheld.
Qed.

Lemma finalizer_without_cached_result_witness :
  fixture_teardown_span (plugin teardown_world) = Some 3 ∧
  span_of teardown_world 3 = Some (placeholder (Some 2)) ∧
  pytest_fixture_post_finalizer_enter (sample_fixture "B" None).1
    sample_request teardown_world = (Ok AtYieldNoCache, teardown_world) ∧
  notify (FixturePostFinalizer (sample_fixture "B" None).1 sample_request [])
    teardown_world = (Ok tt, reopened teardown_world) ∧
  span_of (reopened teardown_world) 3 = Some (placeholder (Some 2)) ∧
  span_of (reopened teardown_world) 4 = Some (placeholder (Some 2)) ∧
  fixture_teardown_span (plugin (reopened teardown_world)) = Some 4 ∧
  reported (tracer (reopened teardown_world)) = [].
Proof.
  destruct (finalizer_without_cached_result (sample_fixture "B" None).1
              sample_request teardown_world) as (frame & Hen & _ & Hrun & Hheld).
  - reflexivity.
  - rewrite Hheld in Hen by (by exists 3).
    split_and!; [reflexivity | reflexivity | exact Hen | exact Hrun
                | reflexivity | reflexivity | reflexivity | reflexivity].
Defined.

(** C4. A finalizer notification that finds no placeholder in the plugin,
    with or without a cached result: the hook does not raise, leaves the
    world as it is before the [yield], and after it only starts a fresh
    placeholder and stores it; nothing is reported. *)
Theorem finalizer_without_placeholder fixturedef request (w : World) :
  fixture_teardown_span (plugin w) = None →
  pytest_fixture_post_finalizer_enter fixturedef request w
    = (Ok AtYieldNoSpan, w) ∧
  (∀ w2, ∃ w3,
     pytest_fixture_post_finalizer_exit AtYieldNoSpan w2 = (Ok tt, w3) ∧
     spans (tracer w3)
       = spans (tracer w2) ++ [placeholder (current_span (tracer w2))] ∧
     reported (tracer w3) = reported (tracer w2) ∧
     fixture_teardown_span (plugin w3) = Some (length (spans (tracer w2)))) ∧
  notify (FixturePostFinalizer fixturedef request []) w = (Ok tt, reopened w).
Proof.
  intros Hslot.
  assert (pytest_fixture_post_finalizer_enter fixturedef request w
          = (Ok AtYieldNoSpan, w)) as Hen.
  { unfold pytest_fixture_post_finalizer_enter, bind, hasattr.
    by rewrite Hslot. }
  split_and!.
  - exact Hen.
  - intros w2. by exists (reopened w2).
  - cbn [notify map]. eapply hookwrapper_ok; [exact Hen | reflexivity |].
    reflexivity.
Qed.

Lemma finalizer_without_placeholder_witness :
  notify (FixturePostFinalizer (sample_fixture "A" (Some Cached)).1
            sample_request [])
    started_world = (Ok tt, reopened started_world).
Proof.
  destruct (finalizer_without_placeholder (sample_fixture "A" (Some Cached)).1
              sample_request started_world) as (_ & _ & H).
  - reflexivity.
  - exact H.
Defined.

(** ** The aggregate error flag *)

Section Preserves.
Variable P : World → Prop.

Lemma preserves_ret {A} (a : A) : preserves P (ret a).
Proof. by intros w. Qed.

Lemma preserves_raise {A} e : preserves P (@raise A e).
Proof. by intros w. Qed.

Lemma preserves_bind {A B} (m : M A) (k : A → M B) :
  preserves P m → (∀ a, preserves P (k a)) → preserves P (bind m k).
Proof.
  intros Hm Hk w Hw. unfold bind. specialize (Hm w Hw).
  destruct (m w) as [[a|e] w1]; cbn in *; [by apply Hk | done].
Qed.

Lemma preserves_getattr {A} name (field : Plugin → option A) :
  preserves P (getattr name field).
Proof. intros w Hw. unfold getattr. by destruct (field (plugin w)). Qed.

Lemma preserves_hasattr {A} (field : Plugin → option A) :
  preserves P (hasattr field).
Proof. by intros w. Qed.

Lemma preserves_environ key : preserves P (os_environ_get key).
Proof. by intros w. Qed.

Lemma preserves_current : preserves P get_current_span.
Proof. by intros w. Qed.

Lemma preserves_hookwrapper {F} (enter : M F) exit inner :
  preserves P enter → (∀ f, preserves P (exit f)) → preserves P inner →
  preserves P (hookwrapper enter exit inner).
Proof.
  intros He Hx Hi. unfold hookwrapper.
  apply preserves_bind; [done|]. intros f w Hw. unfold after_outcome.
  specialize (Hi w Hw). destruct (inner w) as [[[]|e] w1]; cbn in Hi.
  - by apply Hx.
  - specialize (Hx f w1 Hi). by destruct (exit f w1) as [[[]|e'] w2].
Qed.

Lemma preserves_in_order ms :
  Forall (preserves P) ms → preserves P (in_order ms).
Proof.
  induction 1 as [|m ms Hm _ IH]; cbn [in_order].
  - apply preserves_ret.
  - by apply preserves_bind.
Qed.
End Preserves.

Lemma flag_on_tracer {A} v (f : Tracer → A * Tracer) :
  preserves (flag_is v) (on_tracer f).
Proof. intros w Hw. unfold on_tracer. by destruct (f (tracer w)). Qed.

Lemma flag_on_plugin v (f : Plugin → Plugin) :
  (∀ p, has_error (f p) = has_error p) →
  preserves (flag_is v) (on_plugin f).
Proof. intros Hf w Hw. unfold flag_is, on_plugin in *. cbn. by rewrite Hf. Qed.

Lemma flag_on_span v sp f : preserves (flag_is v) (on_span sp f).
Proof.
  destruct sp; [apply flag_on_tracer | apply preserves_ret].
Qed.

Ltac keeps_flag :=
  repeat first
    [ apply preserves_ret
    | apply preserves_raise
    | apply preserves_getattr
    | apply preserves_hasattr
    | apply preserves_environ
    | apply preserves_current
    | apply flag_on_span
    | apply flag_on_tracer
    | (apply flag_on_plugin; done)
    | (apply preserves_bind; [|intros ?])
    | match goal with
      | |- preserves _ (match ?x with _ => _ end) => destruct x
      | |- preserves _ (if ?x then _ else _) => destruct x
      end ].

Lemma flag_start_as_current_span v name context attributes :
  preserves (flag_is v) (start_as_current_span name context attributes).
Proof. unfold start_as_current_span, start_span. keeps_flag. Qed.

Lemma flag_exit_current_span v frame :
  preserves (flag_is v) (exit_current_span frame).
Proof. unfold exit_current_span, on_tracer_. keeps_flag. Qed.

Lemma flag_session_name v : preserves (flag_is v) session_name.
Proof. unfold session_name. keeps_flag. Qed.

Lemma flag_configure v config : preserves (flag_is v) (pytest_configure config).
Proof.
  unfold pytest_configure, base_pytest_configure, get_trace_parent,
    base_get_trace_parent.
  apply preserves_bind; [by intros w|]. intros cls.
  assert (preserves (flag_is v) (λ w, (Ok (plugin_class (plugin w)), w)))
    as Hcls by (by intros w).
  destruct cls; keeps_flag; try apply flag_session_name; try exact Hcls.
Qed.

Lemma flag_sessionfinish v : preserves (flag_is v) pytest_sessionfinish.
Proof.
  unfold pytest_sessionfinish, try_force_flush, on_tracer_. keeps_flag.
  intros w Hw. destruct (has_force_flush (tracer w)); [|done].
  revert w Hw. fold (preserves (flag_is v)
    (on_tracer (λ t, ((), tracer_force_flush t)) >> ret true)). keeps_flag.
Qed.

Lemma flag_interact v call report :
  preserves (flag_is v) (pytest_exception_interact call report).
Proof. unfold pytest_exception_interact. keeps_flag. Qed.

Lemma flag_enter_exit v :
  (∀ item, preserves (flag_is v) (pytest_runtest_protocol_enter item)) ∧
  (∀ item, preserves (flag_is v) (pytest_runtest_setup_enter item)) ∧
  (∀ item, preserves (flag_is v) (pytest_runtest_call_enter item)) ∧
  (∀ item, preserves (flag_is v) (pytest_runtest_teardown_enter item)) ∧
  (∀ frame, preserves (flag_is v) (pytest_runtest_teardown_exit frame)) ∧
  (∀ fd rq, preserves (flag_is v) (pytest_fixture_setup_enter fd rq)) ∧
  (∀ fd rq, preserves (flag_is v) (pytest_fixture_post_finalizer_enter fd rq)) ∧
  (∀ frame, preserves (flag_is v) (pytest_fixture_post_finalizer_exit frame)).
Proof.
  split_and!; intros;
    unfold pytest_runtest_protocol_enter, pytest_runtest_setup_enter,
      pytest_runtest_call_enter, pytest_runtest_teardown_enter,
      pytest_runtest_teardown_exit, pytest_fixture_setup_enter,
      pytest_fixture_post_finalizer_enter, pytest_fixture_post_finalizer_exit,
      start_span, on_tracer_;
    keeps_flag;
    first [apply flag_start_as_current_span | apply flag_exit_current_span].
Qed.

Lemma logreport_flag report (w : World) b :
  has_error (plugin w) = Some b →
  has_error (plugin (pytest_runtest_logreport report w).2)
    = Some (b || reports_call_failure report) ∧
  (pytest_runtest_logreport report w).1 = Ok tt.
Proof.
  intros Hb. unfold pytest_runtest_logreport, reports_call_failure.
  destruct (String.eqb (when report) "call"); cbn [negb andb].
  - unfold bind, getattr. rewrite Hb. cbn.
    destruct (current_span (tracer w)); cbn; done.
  - cbn. by rewrite orb_false_r.
Qed.

Lemma flag_effect_preserves (run : M unit) :
  (∀ v, preserves (flag_is v) run) → flag_effect run false.
Proof.
  intros Hrun w b Hb. exists b. split_and!.
  - by apply (Hrun (Some b)).
  - by left.
  - intros _. by rewrite orb_false_r.
Qed.

Lemma flag_effect_in_order (ns : list Notification) :
  Forall (λ n, mentions_session_start n = false →
               flag_effect (notify n) (mentions_call_failure n)) ns →
  existsb mentions_session_start ns = false →
  flag_effect (in_order (map notify ns)) (existsb mentions_call_failure ns).
Proof.
  induction 1 as [|n ns Hn _ IH]; cbn [existsb map in_order]; intros Hno.
  - apply flag_effect_preserves. intros v. apply preserves_ret.
  - apply orb_false_iff in Hno as [Hno1 Hno2].
    specialize (Hn Hno1). specialize (IH Hno2).
    intros w b Hb. destruct (Hn w b Hb) as (b1 & Hb1 & Hmono1 & Hok1).
    unfold bind. destruct (notify n w) as [[[]|e] w1] eqn:Hrun; cbn in *.
    + destruct (IH w1 b1 Hb1) as (b2 & Hb2 & Hmono2 & Hok2).
      exists b2. split_and!; [done| |].
      * destruct Hmono1 as [-> | [-> Hf1]], Hmono2 as [-> | [-> Hf2]];
          rewrite ?Hf1, ?Hf2, ?orb_true_r; cbn; auto.
      * intros Hok. rewrite (Hok2 Hok), (Hok1 eq_refl). by rewrite orb_assoc.
    + exists b1. split_and!; [done| |done].
      destruct Hmono1 as [-> | [-> Hf1]]; rewrite ?Hf1; auto.
Qed.

Lemma flag_effect_hookwrapper {F} (enter : M F) exit inner failure :
  (∀ v, preserves (flag_is v) enter) →
  (∀ v f, preserves (flag_is v) (exit f)) →
  flag_effect inner failure →
  flag_effect (hookwrapper enter exit inner) failure.
Proof.
  intros He Hx Hi w b Hb. unfold hookwrapper, bind, after_outcome.
  pose proof (He (Some b) w Hb) as Hb1.
  destruct (enter w) as [[f|e] w1]; cbn in *.
  - destruct (Hi w1 b Hb1) as (b2 & Hb2 & Hmono & Hok).
    pose proof (Hx (Some b2) f) as Hexit.
    destruct (inner w1) as [[[]|e] w2]; cbn in *.
    + exists b2. split_and!; [by apply Hexit|done|].
      intros _. by apply Hok.
    + specialize (Hexit w2 Hb2). exists b2.
      destruct (exit f w2) as [[[]|e'] w3]; by split_and!.
  - exists b. split_and!; [done|by left|done].
Qed.

Lemma flag_effect_notify n :
  mentions_session_start n = false →
  flag_effect (notify n) (mentions_call_failure n).
Proof.
  assert (∀ v, _) as Hhooks by exact flag_enter_exit.
  induction n using Notification_nested_ind;
    cbn [mentions_session_start mentions_call_failure notify]; intros Hno;
    try discriminate.
  - apply flag_effect_preserves. intros v. apply flag_configure.
  - apply flag_effect_preserves. intros v. apply flag_sessionfinish.
  - apply flag_effect_hookwrapper; [| |by apply flag_effect_in_order].
    + intros v. destruct (Hhooks v) as (Hen & _). apply Hen.
    + intros v f. apply flag_exit_current_span.
  - apply flag_effect_hookwrapper; [| |by apply flag_effect_in_order].
    + intros v. destruct (Hhooks v) as (_ & Hen & _). apply Hen.
    + intros v f. apply flag_exit_current_span.
  - apply flag_effect_hookwrapper; [| |by apply flag_effect_in_order].
    + intros v. destruct (Hhooks v) as (_ & _ & Hen & _). apply Hen.
    + intros v f. apply flag_exit_current_span.
  - apply flag_effect_hookwrapper; [| |by apply flag_effect_in_order].
    + intros v. destruct (Hhooks v) as (_ & _ & _ & Hen & _). apply Hen.
    + intros v f. destruct (Hhooks v) as (_ & _ & _ & _ & Hex & _). apply Hex.
  - apply flag_effect_hookwrapper; [| |by apply flag_effect_in_order].
    + intros v. destruct (Hhooks v) as (_ & _ & _ & _ & _ & Hen & _). apply Hen.
    + intros v f. apply flag_exit_current_span.
  - apply flag_effect_hookwrapper; [| |by apply flag_effect_in_order].
    + intros v. destruct (Hhooks v) as (_ & _ & _ & _ & _ & _ & Hen & _).
      apply Hen.
    + intros v f. destruct (Hhooks v) as (_ & _ & _ & _ & _ & _ & _ & Hex).
      apply Hex.
  - apply flag_effect_preserves. intros v. apply flag_interact.
  - intros w b Hb. destruct (logreport_flag report w b Hb) as [Hflag Hok].
    exists (b || reports_call_failure report). split_and!; [done| |done].
    destruct b, (reports_call_failure report); cbn; auto.
Qed.

Lemma sessionstart_flag (w : World) :
  is_Some (trace_parent (plugin w)) →
  ∃ w', pytest_sessionstart w = (Ok tt, w') ∧ has_error (plugin w') = Some false.
Proof.
  intros [context Hctx]. destruct w as [[cls name tp ses flag slot] t env].
  cbn in Hctx. subst tp.
  unfold pytest_sessionstart, session_name, bind, hasattr, getattr,
    os_environ_get, on_plugin, start_span, on_tracer.
  destruct name; cbn; eauto.
Qed.

(** C5. The aggregate error flag of the run: [pytest_sessionstart] sets it to
    false; a report of the setup or teardown phase leaves the whole world as
    it is; a report of the call phase ORs "the outcome is failed" into it;
    and over any tree of later notifications (none of them a session start)
    the flag never goes from true to false, goes to true only if the tree
    holds a failed call-phase report, and, when no hook raised, is the old
    flag ORed with "the tree holds a failed call-phase report". *)
Theorem error_flag_only_call_failures :
  (∀ w : World, is_Some (trace_parent (plugin w)) →
     ∃ w', pytest_sessionstart w = (Ok tt, w') ∧
           has_error (plugin w') = Some false) ∧
  (∀ report (w : World), when report ≠ "call" →
     pytest_runtest_logreport report w = (Ok tt, w)) ∧
  (∀ report (w : World) b, when report = "call" →
     has_error (plugin w) = Some b →
     (pytest_runtest_logreport report w).1 = Ok tt ∧
     has_error (plugin (pytest_runtest_logreport report w).2)
       = Some (b || String.eqb (outcome report) "failed")) ∧
  (∀ ns (w : World) b,
     existsb mentions_session_start ns = false →
     has_error (plugin w) = Some b →
     ∃ b', has_error (plugin (notify_all ns w).2) = Some b' ∧
           (b = true → b' = true) ∧
           (b' = true → b = true ∨ existsb mentions_call_failure ns = true) ∧
           ((notify_all ns w).1 = Ok tt →
            b' = b || existsb mentions_call_failure ns)).
Proof.
  split_and!.
  - apply sessionstart_flag.
  - intros report w Hwhen. unfold pytest_runtest_logreport.
    by apply String.eqb_neq in Hwhen as ->.
  - intros report w b Hwhen Hb.
    destruct (logreport_flag report w b Hb) as [Hflag Hok].
    unfold reports_call_failure in Hflag.
    apply String.eqb_eq in Hwhen. by rewrite Hwhen in Hflag.
  - intros ns w b Hno Hb.
    destruct (flag_effect_in_order ns) with (w := w) (b := b)
      as (b' & Hb' & Hmono & Hok); [|done|done|].
    { apply Forall_forall. intros n _. apply flag_effect_notify. }
    exists b'. split_and!; [done| | |done].
    + intros ->. by destruct Hmono as [-> | [-> _]].
    + intros ->. destruct Hmono as [<- | [_ Hf]]; auto.
Qed.

Lemma error_flag_only_call_failures_witness :
  has_error (plugin started_world) = Some false ∧
  ∃ b', has_error
          (plugin (notify_all
                     [item_without_fixtures sample_item
                        (Failed sample_exception "long");
                      item_without_fixtures sample_item Passed]
                     started_world).2) = Some b' ∧
        b' = true.
Proof.
  split; [reflexivity|].
  destruct error_flag_only_call_failures as (_ & _ & _ & H).
  destruct (H [item_without_fixtures sample_item (Failed sample_exception "long");
               item_without_fixtures sample_item Passed]
              started_world false) as (b' & Hb' & _ & _ & Hok).
  - reflexivity.
  - reflexivity.
  - exists b'. split; [exact Hb'|]. apply Hok. reflexivity.
Defined.

(** ** The end of the run *)

Lemma try_force_flush_spec (w : World) :
  try_force_flush w =
  if has_force_flush (tracer w)
  then (Ok true, mkWorld (plugin w) (tracer_force_flush (tracer w)) (environ w))
  else (Ok false, w).
Proof. unfold try_force_flush. by destruct (has_force_flush (tracer w)). Qed.

(** C6. [pytest_sessionfinish] on a run whose root span is still recording:
    the status of the root span is set to error when the aggregate flag is
    set and to ok when it is not (which is then its status, no hook having
    given it the status ok before), it is ended and handed to the exporter,
    and a flush is attempted.  With a provider that has no [force_flush]
    the attempt returns false, changes nothing and does not raise; with one
    that has it, the provider is flushed once. *)
Theorem sessionfinish_sets_status_and_flushes (w : World) sid s b :
  session_span (plugin w) = Some sid →
  has_error (plugin w) = Some b →
  span_of w sid = Some s →
  sp_ended s = false →
  ∃ w',
    pytest_sessionfinish w = (Ok tt, w') ∧
    span_of w' sid =
      Some (span_mark_ended
              (span_set_status (mkStatus (if b then ERROR else OK) None) s)) ∧
    reported (tracer w') = reported (tracer w) ++ [sid] ∧
    flushes (tracer w') =
      (if has_force_flush (tracer w) then S (flushes (tracer w))
       else flushes (tracer w)) ∧
    (∀ w0 : World, has_force_flush (tracer w0) = false →
       try_force_flush w0 = (Ok false, w0)) ∧
    (∀ w0 : World, has_force_flush (tracer w0) = true →
       try_force_flush w0 =
       (Ok true,
        mkWorld (plugin w0) (tracer_force_flush (tracer w0)) (environ w0))) ∧
    (status_code (sp_status s) ≠ OK →
       sp_status <$> span_of w' sid =
       Some (mkStatus (if b then ERROR else OK) None)).
Proof.
  intros Hsid Hb Hs He.
  destruct w as [p [ss rep cur ff fl] env]. unfold span_of in *. cbn in *.
  assert (sid < length ss) as Hlt by (by eapply lookup_lt_Some).
  set (s1 := span_set_status (mkStatus (if b then ERROR else OK) None) s).
  assert (alter (while_recording
                   (span_set_status (mkStatus (if b then ERROR else OK) None)))
            sid ss !! sid = Some s1) as Hs1.
  { by apply alter_recording. }
  assert (∀ ff, ∃ t',
            pytest_sessionfinish (mkWorld p (mkTracer ss rep cur ff fl) env) =
            (Ok tt, mkWorld p t' env) ∧
            spans t' = <[sid := span_mark_ended s1]>
                         (alter (while_recording
                                   (span_set_status
                                      (mkStatus (if b then ERROR else OK) None)))
                            sid ss) ∧
            reported t' = rep ++ [sid] ∧
            flushes t' = if ff then S fl else fl) as Hrun.
  { intros [|]; (eexists; split;
      [ unfold pytest_sessionfinish;
        (eapply bind_ok; [unfold getattr; cbn; by rewrite Hsid|]);
        (eapply bind_ok; [unfold getattr; cbn; by rewrite Hb|]);
        (eapply bind_ok; [reflexivity|]);
        (eapply bind_ok; [unfold getattr; cbn; by rewrite Hsid|]);
        (eapply bind_ok;
           [ unfold on_tracer_, on_tracer, tracer_end, tracer_update, with_spans;
             cbn; rewrite Hs1; unfold s1; rewrite set_status_ended, He;
             reflexivity|]);
        (eapply bind_ok; [rewrite try_force_flush_spec; reflexivity|]);
        reflexivity
      | by split_and! ]). }
  destruct (Hrun ff) as (t' & Hfinish & Hspans & Hrep & Hfl).
  assert (spans t' !! sid = Some (span_mark_ended s1)) as Hend.
  { rewrite Hspans.
    by rewrite list_lookup_insert_eq by (by rewrite length_alter). }
  eexists. split_and!; [exact Hfinish| | | | | |]; cbn [tracer].
  - exact Hend.
  - exact Hrep.
  - exact Hfl.
  - intros w0 Hno. by rewrite try_force_flush_spec, Hno.
  - intros w0 Hyes. by rewrite try_force_flush_spec, Hyes.
  - intros Hnot. rewrite Hend. cbn. f_equal. unfold s1.
    apply set_status_takes; [exact Hnot | by destruct b].
Qed.

Lemma sessionfinish_sets_status_and_flushes_witness :
  ∃ w',
    pytest_sessionfinish started_world = (Ok tt, w') ∧
    (sp_status <$> span_of w' 0) = Some (mkStatus OK None) ∧
    (sp_ended <$> span_of w' 0) = Some true ∧
    reported (tracer w') = [0] ∧
    flushes (tracer w') = 1.
Proof.
  destruct (sessionfinish_sets_status_and_flushes started_world 0
              (new_span "test run" None (<[PYTEST_SPAN_TYPE := AStr "run"]> ∅))
              false)
    as (w' & H1 & H2 & H3 & H4 & _).
  - reflexivity.
  - reflexivity.
  - reflexivity.
  - reflexivity.
  - exists w'. split_and!; [exact H1 | by rewrite H2 | by rewrite H2
                           | exact H3 | exact H4].
Defined.

(** ** Exceptions *)

Lemma on_span_spec sid f (w : World) :
  on_span (Some sid) f w =
  (Ok tt,
   mkWorld (plugin w)
     (with_spans (alter (while_recording f) sid) (tracer w)) (environ w)).
Proof. reflexivity. Qed.

Lemma exception_event_stacktrace e long :
  ev_attributes (exception_event e (<[EXCEPTION_STACKTRACE := AStr long]> ∅))
    !! EXCEPTION_STACKTRACE = Some (AStr long).
Proof. reflexivity. Qed.





(** ** A fixture that raises while it is set up *)

Section NoCallSpan.
Variable n0 : nat.
Let P := no_call_span_since n0.

Lemma no_call_on_plugin f : preserves P (on_plugin f).
Proof. by intros w Hw. Qed.

Lemma no_call_start_span name context attributes :
  attributes !! PYTEST_SPAN_TYPE ≠ Some (AStr "test call") →
  preserves P (start_span name context attributes).
Proof.
  intros Hattrs w Hw i s Hi. unfold span_of, start_span, on_tracer. cbn.
  intros Hs. apply lookup_app_Some in Hs as [Hs | [_ Hs]].
  - by apply (Hw i).
  - apply list_lookup_singleton_Some in Hs as [_ <-]. exact Hattrs.
Qed.

Lemma no_call_update sid f :
  (∀ s, not_call_span s → not_call_span (f s)) →
  preserves P (on_tracer_ (tracer_update sid f)).
Proof.
  intros Hf w Hw i s Hi. unfold span_of, on_tracer_, on_tracer. cbn.
  rewrite list_lookup_alter. case_decide as Heq; [|by apply (Hw i)].
  subst i. destruct (spans (tracer w) !! sid) as [s0|] eqn:Hs0; [|done].
  cbn. intros [= <-]. unfold while_recording.
  destruct (sp_ended s0); [|apply Hf]; by apply (Hw sid).
Qed.

Lemma no_call_on_span sp f :
  (∀ s, not_call_span s → not_call_span (f s)) →
  preserves P (on_span sp f).
Proof.
  intros Hf. destruct sp; [by apply no_call_update | apply preserves_ret].
Qed.

Lemma no_call_end sid : preserves P (on_tracer_ (tracer_end sid)).
Proof.
  intros w Hw i s Hi. unfold span_of, on_tracer_, on_tracer, tracer_end. cbn.
  destruct (spans (tracer w) !! sid) as [s0|] eqn:Hs0; [|by apply (Hw i)].
  destruct (sp_ended s0); [by apply (Hw i)|]. cbn.
  rewrite list_lookup_insert. case_decide as Heq; [|by apply (Hw i)].
  destruct Heq as [<- _]. intros [= <-].
  change (not_call_span s0). by apply (Hw sid).
Qed.

Lemma no_call_attach sid : preserves P (on_tracer (tracer_attach sid)).
Proof. by intros w Hw. Qed.

Lemma no_call_detach token : preserves P (on_tracer_ (tracer_detach token)).
Proof. by intros w Hw. Qed.

Lemma no_call_flush : preserves P try_force_flush.
Proof.
  intros w Hw. unfold try_force_flush.
  by destruct (has_force_flush (tracer w)).
Qed.
End NoCallSpan.

Lemma not_call_update_name name s :
  not_call_span s → not_call_span (span_update_name name s).
Proof. done. Qed.

Lemma not_call_set_status st s :
  not_call_span s → not_call_span (span_set_status st s).
Proof. unfold not_call_span. by rewrite set_status_attributes. Qed.

Lemma not_call_add_event ev s :
  not_call_span s → not_call_span (span_add_event ev s).
Proof. done. Qed.

Lemma not_call_set_fixture_attributes fd rq s :
  not_call_span s →
  not_call_span (span_set_attributes (fixture_attributes fd rq "fixture teardown") s).
Proof.
  intros _. unfold not_call_span. cbn.
  erewrite lookup_union_Some_l by apply fixture_attributes_span_type. done.
Qed.

Ltac keeps_no_call :=
  repeat first
    [ apply preserves_ret
    | apply preserves_raise
    | apply preserves_getattr
    | apply preserves_hasattr
    | apply preserves_environ
    | apply preserves_current
    | apply no_call_on_plugin
    | apply no_call_attach
    | apply no_call_detach
    | apply no_call_end
    | apply no_call_flush
    | (apply no_call_on_span;
       first [ apply not_call_update_name | apply not_call_set_status
             | apply not_call_add_event
             | apply not_call_set_fixture_attributes ])
    | (apply no_call_start_span;
       rewrite ?item_attributes_span_type, ?fixture_attributes_span_type; done)
    | (apply preserves_bind; [|intros ?])
    | match goal with
      | |- preserves _ (match ?x with _ => _ end) => destruct x
      | |- preserves _ (if ?x then _ else _) => destruct x
      end ].

Lemma no_call_handlers n0 :
  (∀ config, preserves (no_call_span_since n0) (pytest_configure config)) ∧
  preserves (no_call_span_since n0) pytest_sessionstart ∧
  preserves (no_call_span_since n0) pytest_sessionfinish ∧
  (∀ item, preserves (no_call_span_since n0) (pytest_runtest_protocol_enter item)) ∧
  (∀ item, preserves (no_call_span_since n0) (pytest_runtest_setup_enter item)) ∧
  (∀ item, preserves (no_call_span_since n0) (pytest_runtest_teardown_enter item)) ∧
  (∀ frame, preserves (no_call_span_since n0) (exit_current_span frame)) ∧
  (∀ frame, preserves (no_call_span_since n0) (pytest_runtest_teardown_exit frame)) ∧
  (∀ fd rq, preserves (no_call_span_since n0) (pytest_fixture_setup_enter fd rq)) ∧
  (∀ fd rq, preserves (no_call_span_since n0)
              (pytest_fixture_post_finalizer_enter fd rq)) ∧
  (∀ frame, preserves (no_call_span_since n0)
              (pytest_fixture_post_finalizer_exit frame)) ∧
  (∀ call report, preserves (no_call_span_since n0)
                    (pytest_exception_interact call report)) ∧
  (∀ report, preserves (no_call_span_since n0) (pytest_runtest_logreport report)).
Proof.
  assert (preserves (no_call_span_since n0)
            (λ w, (Ok (plugin_class (plugin w)), w))) as Hcls by (by intros w).
  split_and!; intros;
    unfold pytest_configure, base_pytest_configure, get_trace_parent,
      base_get_trace_parent, pytest_sessionstart, pytest_sessionfinish,
      session_name,
      pytest_runtest_protocol_enter, pytest_runtest_setup_enter,
      pytest_runtest_teardown_enter, pytest_runtest_teardown_exit,
      pytest_fixture_setup_enter, pytest_fixture_post_finalizer_enter,
      pytest_fixture_post_finalizer_exit, pytest_exception_interact,
      pytest_runtest_logreport, start_as_current_span, exit_current_span;
    keeps_no_call; try exact Hcls.
Qed.

Lemma no_call_in_order n0 (ns : list Notification) :
  Forall (λ n, mentions_call n = false →
               preserves (no_call_span_since n0) (notify n)) ns →
  existsb mentions_call ns = false →
  preserves (no_call_span_since n0) (in_order (map notify ns)).
Proof.
  intros Hall Hno. apply preserves_in_order.
  induction Hall as [|n ns Hn _ IH]; cbn [map]; [constructor|].
  cbn [existsb] in Hno. apply orb_false_iff in Hno as [Hno1 Hno2].
  constructor; auto.
Qed.

Lemma no_call_notify n0 n :
  mentions_call n = false → preserves (no_call_span_since n0) (notify n).
Proof.
  destruct (no_call_handlers n0)
    as (Hcfg & Hstart & Hfin & Hpe & Hse & Hte & Hx & Htx & Hfs & Hfe & Hfx
        & Hint & Hlog).
  induction n using Notification_nested_ind;
    cbn [mentions_call notify]; intros Hno; try discriminate.
  - apply Hcfg.
  - exact Hstart.
  - exact Hfin.
  - apply preserves_hookwrapper; [apply Hpe | exact Hx | by apply no_call_in_order].
  - apply preserves_hookwrapper; [apply Hse | exact Hx | by apply no_call_in_order].
  - apply preserves_hookwrapper; [apply Hte | exact Htx | by apply no_call_in_order].
  - apply preserves_hookwrapper; [apply Hfs | exact Hx | by apply no_call_in_order].
  - apply preserves_hookwrapper; [apply Hfe | exact Hfx | by apply no_call_in_order].
  - apply Hint.
  - apply Hlog.
Qed.

(** C8. No span of a call phase is created by a notification tree that
    holds no call-phase hook: every span created while such a tree is
    processed is something else.  The runner sends no call-phase hook for an
    item whose fixture raised during setup; processing what it does send
    succeeds, creates (and reports) the spans of the setup and of the
    teardown phase, and leaves the test span ended with the status error. *)
Theorem failing_fixture_setup_has_no_call_span item fixturedef request e long
    (w : World) session :
  session_span (plugin w) = Some session →
  let n := length (spans (tracer w)) in
  (∀ ns, existsb mentions_call ns = false →
     no_call_span_since n (notify_all ns w).2) ∧
  mentions_call (item_with_failing_fixture item fixturedef request e long)
    = false ∧
  ∃ w',
    notify (item_with_failing_fixture item fixturedef request e long) w
      = (Ok tt, w') ∧
    no_call_span_since n w' ∧
    (λ i, span_label <$> span_of w' i) <$> [n + 1; n + 3] =
      [Some (item_name item +:+ " setup", Some (AStr "test setup"));
       Some (item_name item +:+ " teardown", Some (AStr "test teardown"))] ∧
    n + 1 ∈ reported (tracer w') ∧
    n + 3 ∈ reported (tracer w') ∧
    (λ s, (sp_name s, sp_status s, length (sp_events s), sp_ended s))
      <$> span_of w' n =
      Some (item_name item,
            mkStatus ERROR (Some (exc_type_str e +:+ ": " +:+ exc_value_str e)),
            1, true).
Proof.
  intros Hsession n.
  assert (no_call_span_since n w) as Hstart.
  { intros i s Hi Hs. apply lookup_lt_Some in Hs. unfold n in Hi. lia. }
  assert (∀ ns, existsb mentions_call ns = false →
            no_call_span_since n (notify_all ns w).2) as Hgeneral.
  { intros ns Hno. apply no_call_in_order; [|done..].
    apply Forall_forall. intros m _. apply no_call_notify. }
  split_and!; [exact Hgeneral | reflexivity |].
  assert (∃ w',
    notify (item_with_failing_fixture item fixturedef request e long) w
      = (Ok tt, w') ∧
    (λ i, span_label <$> span_of w' i) <$> [n + 1; n + 3] =
      [Some (item_name item +:+ " setup", Some (AStr "test setup"));
       Some (item_name item +:+ " teardown", Some (AStr "test teardown"))] ∧
    n + 1 ∈ reported (tracer w') ∧
    n + 3 ∈ reported (tracer w') ∧
    (λ s, (sp_name s, sp_status s, length (sp_events s), sp_ended s))
      <$> span_of w' n =
      Some (item_name item,
            mkStatus ERROR (Some (exc_type_str e +:+ ": " +:+ exc_value_str e)),
            1, true)) as (w' & Hrun & Hrest).
  { clear Hstart Hgeneral. subst n.
    destruct w as [p [ss rep cur ff fl] env].
    cbn [plugin tracer spans] in *. rewrite world_fresh.
    unfold item_with_failing_fixture, phase_end.
    destruct (cached_result fixturedef) as [c|] eqn:Hc;
      (eexists; split; [run_hooks|]).
    all: cbn; unfold span_of; cbn.
    all: rewrite ?Nat.add_0_r, ?length_app, <- ?app_assoc, ?lookup_fresh,
           ?lookup_fresh0; cbn.
    all: unfold span_label; cbn; rewrite ?item_attributes_span_type.
    all: split_and!; try reflexivity.
    all: rewrite !elem_of_app, !elem_of_cons; auto 10. }
  exists w'. split; [exact Hrun|]. split; [|exact Hrest].
  specialize (Hgeneral
    [item_with_failing_fixture item fixturedef request e long] eq_refl).
  unfold notify_all in Hgeneral. cbn [map in_order] in Hgeneral.
  unfold bind in Hgeneral. fold notify in Hgeneral.
  by rewrite Hrun in Hgeneral.
Qed.

Lemma failing_fixture_setup_has_no_call_span_witness :
  ∃ w',
    notify (item_with_failing_fixture sample_item
              (sample_fixture "borked_fixture" (Some Cached)).1 sample_request
              sample_exception "long") started_world = (Ok tt, w') ∧
    no_call_span_since 1 w' ∧
    (λ s, (sp_name s, sp_status s, length (sp_events s), sp_ended s))
      <$> span_of w' 1 =
      Some ("test_one",
            mkStatus ERROR (Some "<class 'AssertionError'>: assert 4 == 5"),
            1, true).
Proof.
  pose proof (failing_fixture_setup_has_no_call_span sample_item
                (sample_fixture "borked_fixture" (Some Cached)).1 sample_request
                sample_exception "long" started_world 0 eq_refl) as H.
  destruct H as (_ & _ & w' & H1 & H2 & _ & _ & _ & H3).
  exists w'. split_and!; [exact H1 | exact H2 | exact H3].
Defined.

(** ** Line numbers *)

Lemma truthy_int_decide n :
  truthy_int n = if decide (n = 0%Z) then false else true.
Proof.
  unfold truthy_int. case_decide as H; [by subst|].
  by apply Z.eqb_neq in H as ->.
Qed.

Lemma item_attributes_lineno item span_type :
  item_attributes item span_type !! CODE_LINENO
  = lineno_attribute (item_line item).
Proof.
  unfold item_attributes, item_line, lineno_attribute.
  destruct (item_location item) as [[filepath [n|]] ?]; cbn; [|reflexivity].
  rewrite truthy_int_decide. case_decide; reflexivity.
Qed.

Lemma fixture_attributes_lineno fixturedef request span_type :
  fixture_attributes fixturedef request span_type !! CODE_LINENO
  = lineno_attribute (fixture_line fixturedef).
Proof.
  unfold fixture_attributes, fixture_line, lineno_attribute.
  destruct (has_location fixturedef); [|reflexivity].
  destruct (fslineno fixturedef) as [filepath n]. cbn.
  rewrite truthy_int_decide. case_decide; reflexivity.
Qed.

Lemma lineno_attribute_never_zero line :
  lineno_attribute line ≠ Some (AInt 0).
Proof.
  unfold lineno_attribute. destruct line as [n|]; [|done].
  case_decide; congruence.
Qed.

(** C9. The line-number attribute of the spans of an item that uses a
    fixture: the test span and the spans of the three phases carry
    [code.lineno] exactly when the item's line number is there and not zero,
    then with that number; the spans of the fixture's setup and teardown
    carry it exactly when the fixture has a location whose line number is
    not zero.  The key is never present with the value zero. *)
Theorem lineno_attribute_omitted_when_zero item fixturedef request
    (w : World) session b c :
  session_span (plugin w) = Some session →
  has_error (plugin w) = Some b →
  cached_result fixturedef = Some c →
  let n := length (spans (tracer w)) in
  (∃ w',
     notify (item_with_fixture item fixturedef request) w = (Ok tt, w') ∧
     reported (tracer w')
       = reported (tracer w) ++ [n + 2; n + 1; n + 3; n + 5; n + 4; n] ∧
     (λ i, span_label <$> span_of w' i)
       <$> [n; n + 1; n + 3; n + 4; n + 2; n + 5] =
       [Some (item_name item, Some (AStr "test"));
        Some (item_name item +:+ " setup", Some (AStr "test setup"));
        Some (item_name item +:+ " call", Some (AStr "test call"));
        Some (item_name item +:+ " teardown", Some (AStr "test teardown"));
        Some (argname fixturedef +:+ " setup", Some (AStr "fixture setup"));
        Some (argname fixturedef +:+ " teardown", Some (AStr "fixture teardown"))] ∧
     (λ i, span_lineno <$> span_of w' i) <$> [n; n + 1; n + 3; n + 4] =
       replicate 4 (Some (lineno_attribute (item_line item))) ∧
     (λ i, span_lineno <$> span_of w' i) <$> [n + 2; n + 5] =
       replicate 2 (Some (lineno_attribute (fixture_line fixturedef)))) ∧
  lineno_attribute None = None ∧
  lineno_attribute (Some 0%Z) = None ∧
  (∀ z, z ≠ 0%Z → lineno_attribute (Some z) = Some (AInt z)) ∧
  (∀ line, lineno_attribute line ≠ Some (AInt 0)).
Proof.
  intros Hsession Hb Hc n. split_and!.
  - subst n. destruct w as [p [ss rep cur ff fl] env].
    cbn [plugin tracer spans reported] in *. rewrite world_fresh.
    unfold item_with_fixture, phase_end.
    eexists; split; [run_hooks|].
    cbn; unfold span_of; cbn.
    rewrite ?Nat.add_0_r, ?length_app, <- ?app_assoc, ?lookup_fresh,
      ?lookup_fresh0; cbn.
    unfold span_label, span_lineno; cbn.
    rewrite ?(right_id_L ∅ (∪)).
    rewrite ?item_attributes_span_type, ?fixture_attributes_span_type,
      ?item_attributes_lineno, ?fixture_attributes_lineno.
    by split_and!.
  - reflexivity.
  - reflexivity.
  - intros z Hz. unfold lineno_attribute. by case_decide.
  - apply lineno_attribute_never_zero.
Qed.

Lemma lineno_attribute_omitted_when_zero_witness :
  ∃ w',
    notify (item_with_fixture
              (mkItem "test_one" "t.py::test_one" ("t.py", Some 0%Z, "test_one"))
              (sample_fixture "A" (Some Cached)).1 sample_request)
      started_world = (Ok tt, w') ∧
    (λ i, span_lineno <$> span_of w' i) <$> [1; 2; 4; 5] = replicate 4 (Some None) ∧
    (λ i, span_lineno <$> span_of w' i) <$> [3; 6] = replicate 2 (Some (Some (AInt 3))).
Proof.
  pose proof (lineno_attribute_omitted_when_zero
                (mkItem "test_one" "t.py::test_one" ("t.py", Some 0%Z, "test_one"))
                (sample_fixture "A" (Some Cached)).1 sample_request
                started_world 0 false Cached eq_refl eq_refl eq_refl) as H.
  destruct H as ((w' & H1 & _ & _ & H2 & H3) & _).
  exists w'. split_and!; [exact H1 | exact H2 | exact H3].
Defined.

(** ** The parent trace context *)

Lemma walrus_str_present s : s ≠ "" → walrus_str (Some s) = Some s.
Proof. by destruct s. Qed.

Lemma walrus_str_absent v : v = None ∨ v = Some "" → walrus_str v = None.
Proof. by intros [-> | ->]. Qed.

Lemma walrus_dict_present (d : gmap string string) :
  d ≠ ∅ → walrus_dict (Some d) = Some d.
Proof. intros Hd. unfold walrus_dict. by rewrite bool_decide_eq_false_2. Qed.

Lemma walrus_dict_absent (v : option (gmap string string)) :
  v = None ∨ v = Some ∅ → walrus_dict v = None.
Proof. by intros [-> | ->]. Qed.

(** C10. Where the parent trace context comes from, a value counting as
    present when it is set and not empty.  The base plugin extracts it from
    the [--trace-parent] option when that is present, else from the
    [TRACEPARENT] environment variable when that is present, else there is
    no parent.  The xdist plugin extracts it from the worker input when that
    is present and otherwise does what the base plugin does.  Neither
    changes the world nor raises. *)
Theorem trace_parent_precedence config (w : World) :
  (∀ tp, opt_trace_parent config = Some tp → tp ≠ "" →
     get_trace_parent OpenTelemetryPlugin config w
     = (Ok (Some (propagate_extract {[ "traceparent" := tp ]})), w)) ∧
  (∀ tp, opt_trace_parent config = None ∨ opt_trace_parent config = Some "" →
     environ w !! "TRACEPARENT" = Some tp → tp ≠ "" →
     get_trace_parent OpenTelemetryPlugin config w
     = (Ok (Some (propagate_extract {[ "traceparent" := tp ]})), w)) ∧
  (opt_trace_parent config = None ∨ opt_trace_parent config = Some "" →
   environ w !! "TRACEPARENT" = None ∨ environ w !! "TRACEPARENT" = Some "" →
   get_trace_parent OpenTelemetryPlugin config w = (Ok None, w)) ∧
  (∀ handshake, workerinput config = Some handshake → handshake ≠ ∅ →
     get_trace_parent XdistOpenTelemetryPlugin config w
     = (Ok (Some (propagate_extract handshake)), w)) ∧
  (workerinput config = None ∨ workerinput config = Some ∅ →
   get_trace_parent XdistOpenTelemetryPlugin config w
   = get_trace_parent OpenTelemetryPlugin config w).
Proof.
  unfold get_trace_parent, base_get_trace_parent. split_and!.
  - intros tp -> Htp. by rewrite walrus_str_present.
  - intros tp Hopt Henv Htp. rewrite (walrus_str_absent _ Hopt).
    unfold bind, os_environ_get. rewrite Henv. by rewrite walrus_str_present.
  - intros Hopt Henv. rewrite (walrus_str_absent _ Hopt).
    unfold bind, os_environ_get. by rewrite (walrus_str_absent _ Henv).
  - intros handshake -> Hne. by rewrite walrus_dict_present.
  - intros Hno. by rewrite (walrus_dict_absent _ Hno).
Qed.

Lemma trace_parent_precedence_witness :
  get_trace_parent OpenTelemetryPlugin
    (mkConfig (Some sample_traceparent) None false)
    (fresh_world OpenTelemetryPlugin false {[ "TRACEPARENT" := other_traceparent ]})
  = (Ok (Some (Some (RemoteSpan "0af7651916cd43dd8448eb211c80319c"
                       "b7ad6b7169203331" "01"))),
     fresh_world OpenTelemetryPlugin false {[ "TRACEPARENT" := other_traceparent ]})
  ∧
  get_trace_parent XdistOpenTelemetryPlugin
    (mkConfig (Some sample_traceparent)
       (Some {[ "workerid" := "gw0"; "traceparent" := other_traceparent ]}) false)
    (fresh_world XdistOpenTelemetryPlugin false ∅)
  = (Ok (Some (Some (RemoteSpan "4bf92f3577b34da6a3ce929d0e0e4736"
                       "00f067aa0ba902b7" "00"))),
     fresh_world XdistOpenTelemetryPlugin false ∅).
Proof.
  split.
  - destruct (trace_parent_precedence
                (mkConfig (Some sample_traceparent) None false)
                (fresh_world OpenTelemetryPlugin false
                   {[ "TRACEPARENT" := other_traceparent ]})) as (H & _).
    exact (H sample_traceparent eq_refl ltac:(discriminate)).
  - destruct (trace_parent_precedence
                (mkConfig (Some sample_traceparent)
                   (Some {[ "workerid" := "gw0";
                            "traceparent" := other_traceparent ]}) false)
                (fresh_world XdistOpenTelemetryPlugin false ∅))
      as (_ & _ & _ & H & _).
    exact (H _ eq_refl ltac:(apply insert_non_empty)).
Defined.

(** ** The ambient current span *)

Lemma current_on_plugin c f : preserves (current_is c) (on_plugin f).
Proof. by intros w Hw. Qed.

Lemma current_start_span c name context attributes :
  preserves (current_is c) (start_span name context attributes).
Proof. by intros w Hw. Qed.

Lemma current_on_span c sp f : preserves (current_is c) (on_span sp f).
Proof. destruct sp; [by intros w Hw | apply preserves_ret]. Qed.

Lemma current_end c sid : preserves (current_is c) (on_tracer_ (tracer_end sid)).
Proof.
  intros w Hw. unfold current_is, on_tracer_, on_tracer, tracer_end in *. cbn.
  destruct (spans (tracer w) !! sid) as [s|]; [|done].
  by destruct (sp_ended s).
Qed.

Lemma current_flush c : preserves (current_is c) try_force_flush.
Proof.
  intros w Hw. unfold try_force_flush.
  by destruct (has_force_flush (tracer w)).
Qed.

Ltac keeps_current :=
  repeat first
    [ apply preserves_ret
    | apply preserves_raise
    | apply preserves_getattr
    | apply preserves_hasattr
    | apply preserves_environ
    | apply preserves_current
    | apply current_on_plugin
    | apply current_start_span
    | apply current_on_span
    | apply current_end
    | apply current_flush
    | (apply preserves_bind; [|intros ?])
    | match goal with
      | |- preserves _ (match ?x with _ => _ end) => destruct x
      | |- preserves _ (if ?x then _ else _) => destruct x
      end ].

Lemma current_plain_hooks c :
  (∀ config, preserves (current_is c) (pytest_configure config)) ∧
  preserves (current_is c) pytest_sessionstart ∧
  preserves (current_is c) pytest_sessionfinish ∧
  (∀ fd rq, preserves (current_is c) (pytest_fixture_post_finalizer_enter fd rq)) ∧
  (∀ frame, preserves (current_is c) (pytest_fixture_post_finalizer_exit frame)) ∧
  (∀ call report, preserves (current_is c) (pytest_exception_interact call report)) ∧
  (∀ report, preserves (current_is c) (pytest_runtest_logreport report)).
Proof.
  assert (preserves (current_is c)
            (λ w, (Ok (plugin_class (plugin w)), w))) as Hcls by (by intros w).
  split_and!; intros;
    unfold pytest_configure, base_pytest_configure, get_trace_parent,
      base_get_trace_parent, pytest_sessionstart, pytest_sessionfinish,
      session_name, pytest_fixture_post_finalizer_enter,
      pytest_fixture_post_finalizer_exit, pytest_exception_interact,
      pytest_runtest_logreport;
    keeps_current; try exact Hcls.
Qed.

Lemma start_as_current_span_token name context attributes (w : World) frame w1 :
  start_as_current_span name context attributes w = (Ok frame, w1) →
  frame.2 = current_span (tracer w).
Proof.
  unfold start_as_current_span, bind, start_span, on_tracer, ret. cbn.
  by intros [= <- _].
Qed.

Lemma exit_current_span_restores frame (w : World) :
  current_span (tracer (exit_current_span frame w).2) = frame.2.
Proof.
  unfold exit_current_span, bind, on_tracer_, on_tracer, tracer_end. cbn.
  destruct (spans (tracer w) !! frame.1) as [s|]; [|done].
  by destruct (sp_ended s).
Qed.

(** A hook wrapper that makes its span current returns with the span that
    was current when it started. *)
Lemma bracket_restores {F} (enter : M F) (exit : F → M unit) inner token
    (w w' : World) :
  (∀ w0 frame w1, enter w0 = (Ok frame, w1) →
                  token frame = current_span (tracer w0)) →
  (∀ frame w2 r w3, exit frame w2 = (r, w3) →
                    current_span (tracer w3) = token frame) →
  hookwrapper enter exit inner w = (Ok tt, w') →
  current_span (tracer w') = current_span (tracer w).
Proof.
  intros Hen Hex Hrun.
  apply hookwrapper_inv in Hrun as (frame & w1 & w2 & Henter & _ & Hexit).
  rewrite (Hex _ _ _ _ Hexit). by eapply Hen.
Qed.

Lemma in_order_restores (ns : list Notification) :
  Forall (λ n, ∀ w w', notify n w = (Ok tt, w') →
                        current_span (tracer w') = current_span (tracer w)) ns →
  ∀ w w', in_order (map notify ns) w = (Ok tt, w') →
          current_span (tracer w') = current_span (tracer w).
Proof.
  induction 1 as [|n ns Hn _ IH]; cbn [map in_order]; intros w w' Hrun.
  - by inversion Hrun.
  - apply bind_inv in Hrun as ([] & w1 & Hone & Hrest).
    rewrite (IH _ _ Hrest). by apply Hn.
Qed.

Lemma exit_current_span_token frame (w2 : World) r w3 :
  exit_current_span frame w2 = (r, w3) → current_span (tracer w3) = frame.2.
Proof. intros H. by rewrite <- (exit_current_span_restores frame w2), H. Qed.

Lemma teardown_exit_token frame (w2 : World) r w3 :
  pytest_runtest_teardown_exit frame w2 = (r, w3) →
  current_span (tracer w3) = frame.2.
Proof.
  unfold pytest_runtest_teardown_exit, bind.
  pose proof (exit_current_span_restores frame w2) as Hcur.
  destruct (exit_current_span frame w2) as [[[]|e] w'] eqn:Hexit; cbn in Hcur.
  - unfold getattr, on_plugin.
    destruct (fixture_teardown_span (plugin w')); by intros [= _ <-].
  - by intros [= _ <-].
Qed.

(** X1. Every notification the plugin processes without raising leaves the
    ambient current span as it found it, whatever the notifications nested
    in it did. *)
Theorem notification_restores_current_span n (w w' : World) :
  notify n w = (Ok tt, w') →
  current_span (tracer w') = current_span (tracer w).
Proof.
  revert w w'. induction n using Notification_nested_ind;
    cbn [notify]; intros w w' Hrun.
  - destruct (current_plain_hooks (current_span (tracer w))) as (Hp & _).
    pose proof (Hp config w eq_refl) as Hw. by rewrite Hrun in Hw.
  - destruct (current_plain_hooks (current_span (tracer w))) as (_ & Hp & _).
    pose proof (Hp w eq_refl) as Hw. by rewrite Hrun in Hw.
  - destruct (current_plain_hooks (current_span (tracer w))) as (_ & _ & Hp & _).
    pose proof (Hp w eq_refl) as Hw. by rewrite Hrun in Hw.
  - eapply (bracket_restores _ _ _ snd); [| |exact Hrun].
    + intros w0 frame w1. unfold pytest_runtest_protocol_enter.
      intros (session & w0' & Hget & Hstart)%bind_inv.
      unfold getattr in Hget. destruct (session_span (plugin w0)); [|done].
      inversion Hget; subst. by eapply start_as_current_span_token.
    + apply exit_current_span_token.
  - eapply (bracket_restores _ _ _ snd); [| |exact Hrun].
    + intros w0 frame w1. apply start_as_current_span_token.
    + apply exit_current_span_token.
  - eapply (bracket_restores _ _ _ snd); [| |exact Hrun].
    + intros w0 frame w1. apply start_as_current_span_token.
    + apply exit_current_span_token.
  - eapply (bracket_restores _ _ _ snd); [| |exact Hrun].
    + intros w0 frame w1. unfold pytest_runtest_teardown_enter.
      intros (frame' & w0' & Hstart & Hrest)%bind_inv.
      apply start_as_current_span_token in Hstart.
      unfold bind, start_span, on_tracer, on_plugin, ret in Hrest. cbn in Hrest.
      inversion Hrest; by subst.
    + apply teardown_exit_token.
  - eapply (bracket_restores _ _ _ snd); [| |exact Hrun].
    + intros w0 frame w1. apply start_as_current_span_token.
    + apply exit_current_span_token.
  - apply hookwrapper_inv in Hrun as (frame & w1 & w2 & Henter & Hinner & Hexit).
    destruct (current_plain_hooks (current_span (tracer w)))
      as (_ & _ & _ & Hen & Hex & _).
    pose proof (Hen fd rq w eq_refl) as H1. rewrite Henter in H1. cbn in H1.
    pose proof (in_order_restores inner H w1 w2 Hinner) as H2.
    unfold current_is in H1. rewrite <- H2 in H1.
    pose proof (Hex frame w2 H1) as H3. by rewrite Hexit in H3.
  - destruct (current_plain_hooks (current_span (tracer w)))
      as (_ & _ & _ & _ & _ & Hp & _).
    pose proof (Hp call report w eq_refl) as Hw. by rewrite Hrun in Hw.
  - destruct (current_plain_hooks (current_span (tracer w)))
      as (_ & _ & _ & _ & _ & _ & Hp).
    pose proof (Hp report w eq_refl) as Hw. by rewrite Hrun in Hw.
Qed.

Lemma notification_restores_current_span_witness :
  current_span
    (tracer (notify (item_without_fixtures sample_item Passed) started_world).2)
  = None.
Proof.
  apply (notification_restores_current_span
           (item_without_fixtures sample_item Passed) started_world).
  vm_compute. reflexivity.
Defined.

(** ** The placeholder after a finalizer notification *)

(** X2. A finalizer notification never raises, whatever the plugin holds
    and whatever state the span it holds is in: afterwards the store has
    exactly one more span, an untouched, unended placeholder under the
    current span, and the plugin holds it.  At most one span is reported,
    and then it is the span the plugin held, for a fixture with a cached
    result. *)
Theorem finalizer_always_leaves_placeholder fixturedef request (w : World) :
  ∃ w',
    notify (FixturePostFinalizer fixturedef request []) w = (Ok tt, w') ∧
    length (spans (tracer w')) = S (length (spans (tracer w))) ∧
    span_of w' (length (spans (tracer w)))
      = Some (placeholder (current_span (tracer w))) ∧
    fixture_teardown_span (plugin w') = Some (length (spans (tracer w))) ∧
    (reported (tracer w') = reported (tracer w) ∨
     ∃ held, fixture_teardown_span (plugin w) = Some held ∧
             is_Some (cached_result fixturedef) ∧
             reported (tracer w') = reported (tracer w) ++ [held]) ∧
    session_span (plugin w') = session_span (plugin w) ∧
    has_error (plugin w') = has_error (plugin w).
Proof.
  destruct w as [[cls name tp ses flag slot] [ss rep cur ff fl] env].
  unfold span_of. cbn [notify map in_order].
  unfold hookwrapper, after_outcome, pytest_fixture_post_finalizer_enter,
    pytest_fixture_post_finalizer_exit, bind, hasattr, getattr, ret,
    on_span, on_tracer_, on_tracer, on_plugin, start_span.
  destruct slot as [held|]; cbn.
  2: { eexists. split; [reflexivity|]. cbn. split_and!; try reflexivity.
       - by rewrite length_app, Nat.add_1_r.
       - by rewrite lookup_fresh0.
       - by left. }
  destruct (cached_result fixturedef) as [c|]; cbn.
  2: { eexists. split; [reflexivity|]. cbn. split_and!; try reflexivity.
       - by rewrite length_app, Nat.add_1_r.
       - by rewrite lookup_fresh0.
       - by left. }
  unfold tracer_end, tracer_update, with_spans. cbn.
  set (ss2 := alter _ held (alter _ held ss)).
  assert (length ss2 = length ss) as Hlen by (unfold ss2; by rewrite !length_alter).
  destruct (ss2 !! held) as [s|] eqn:Hs; cbn.
  - destruct (sp_ended s); cbn.
    + eexists. split; [reflexivity|]. cbn. split_and!; try reflexivity.
      * by rewrite length_app, Hlen, Nat.add_1_r.
      * by rewrite <- Hlen, lookup_fresh0.
      * by rewrite Hlen.
      * by left.
    + eexists. split; [reflexivity|]. cbn. split_and!; try reflexivity.
      * by rewrite length_app, length_insert, Hlen, Nat.add_1_r.
      * rewrite <- Hlen, <- (length_insert ss2 held (span_mark_ended s)).
        by rewrite lookup_fresh0.
      * by rewrite length_insert, Hlen.
      * right. exists held. split_and!; [done | by eexists | done].
  - eexists. split; [reflexivity|]. cbn. split_and!; try reflexivity.
    + by rewrite length_app, Hlen, Nat.add_1_r.
    + by rewrite <- Hlen, lookup_fresh0.
    + by rewrite Hlen.
    + by left.
Qed.

(** ** Every span of a teardown phase *)

(** The finalizer notifications of a teardown phase, with the whole of the
    store they leave: one more span per notification, and every span from
    the first placeholder on that was not reported is an untouched
    placeholder. *)
Lemma finalizers_store fds : ∀ p ss l rep cur ff fl env k,
  fixture_teardown_span p = Some (length ss + k) →
  l !! k = Some (placeholder cur) →
  S k = length l →
  ∃ l' ids k',
    notify_all (finalizers fds)
      (mkWorld p (mkTracer (ss ++ l) rep cur ff fl) env) =
    (Ok tt,
     mkWorld (set_fixture_teardown_span (Some (length ss + k')) p)
       (mkTracer (ss ++ l') (rep ++ ids) cur ff fl) env) ∧
    S k' = length l' ∧
    length l' = length l + length fds ∧
    (∀ j, (j < k)%nat → l' !! j = l !! j) ∧
    Forall2 (λ i fd, ∃ j, i = length ss + j ∧ (k ≤ j)%nat ∧
                          l' !! j = Some (finalized fd (placeholder cur)))
      ids (filter has_cached_result fds) ∧
    (∀ j, (k ≤ j)%nat → (j < length l')%nat → length ss + j ∉ ids →
          l' !! j = Some (placeholder cur)).
Proof.
  induction fds as [|fd fds IH]; intros p ss l rep cur ff fl env k Hslot Hk Hlast.
  - exists l, [], k. split_and!; [|done|cbn; lia|done|constructor|].
    + cbn. rewrite app_nil_r. destruct p; cbn in *. by rewrite Hslot.
    + intros j Hj Hlt _. by replace j with k by lia.
  - pose proof (finalizer_step fd p ss l rep cur ff fl env k Hslot Hk) as Hstep.
    set (l1 := (if decide (has_cached_result fd)
                then <[k := finalized fd (placeholder cur)]> l else l)) in *.
    set (ids1 := (if decide (has_cached_result fd)
                  then [length ss + k] else [])) in *.
    assert (length l1 = length l) as Hlen.
    { unfold l1. destruct (decide _); [apply length_insert | done]. }
    destruct (IH (set_fixture_teardown_span (Some (length ss + length l)) p)
                ss (l1 ++ [placeholder cur]) (rep ++ ids1)
                cur ff fl env (length l))
      as (l' & ids & k' & Hrun & Hk' & Hsize & Hold & Hids & Hrest).
    { reflexivity. }
    { rewrite <- Hlen. by rewrite list_lookup_middle. }
    { rewrite length_app, Hlen. cbn. lia. }
    exists l', (ids1 ++ ids), k'.
    split_and!.
    + change (finalizers (fd :: fds))
        with (FixturePostFinalizer fd.1 fd.2 [] :: finalizers fds).
      rewrite notify_all_cons. eapply bind_ok; [exact Hstep|].
      rewrite Hrun. by rewrite app_assoc.
    + exact Hk'.
    + rewrite Hsize, length_app, Hlen. cbn. lia.
    + intros j Hj. rewrite Hold by lia.
      rewrite lookup_app_l by lia. unfold l1.
      destruct (decide _); [|done]. by rewrite list_lookup_insert_ne by lia.
    + rewrite filter_cons. unfold ids1, l1 in *.
      destruct (decide (has_cached_result fd)) as [Hc|Hc].
      * cbn [app]. constructor.
        -- exists k. split_and!; [done|done|].
           rewrite Hold by lia. rewrite lookup_app_l by (rewrite length_insert; lia).
           by rewrite list_lookup_insert_eq by lia.
        -- eapply Forall2_impl; [exact Hids|].
           intros i fd' (j & -> & Hle & Hj). exists j. split_and!; [done|lia|done].
      * cbn [app].
        eapply Forall2_impl; [exact Hids|].
        intros i fd' (j & -> & Hle & Hj). exists j. split_and!; [done|lia|done].
    + intros j Hj Hlt Hnot. apply not_elem_of_app in Hnot as [Hnot1 Hnot2].
      destruct (decide (j = k)) as [->|Hne].
      * rewrite Hold by lia. rewrite lookup_app_l by lia.
        unfold ids1, l1 in *. destruct (decide (has_cached_result fd)).
        -- exfalso. apply Hnot1. by apply list_elem_of_singleton.
        -- exact Hk.
      * apply Hrest; [lia | done | done].
Qed.

(** X3. The teardown phase of an item, for any sequence of finalizer
    notifications inside it: the hook does not raise; the store grows by
    the phase span, the first placeholder and one span per notification;
    what is reported are the spans of the notifications with a cached
    result, named after their fixtures and in the order of the
    notifications, then the phase span; every other new span is an untouched
    placeholder that was never ended (one per notification without a cached
    result, and the last one); the spans that were there before are as they
    were, and the plugin ends up without a placeholder. *)
Theorem teardown_phase_accounts_for_every_span item fds (w : World) :
  let n := length (spans (tracer w)) in
  ∃ w' ids,
    notify (RuntestTeardown item (finalizers fds)) w = (Ok tt, w') ∧
    length (spans (tracer w')) = n + 2 + length fds ∧
    reported (tracer w') = reported (tracer w) ++ ids ++ [n] ∧
    (λ i, span_label <$> span_of w' i) <$> ids =
      (λ fd, Some (argname fd.1 +:+ " teardown", Some (AStr "fixture teardown")))
        <$> filter has_cached_result fds ∧
    (∀ i, (n < i)%nat → (i < n + 2 + length fds)%nat → i ∉ ids →
          span_of w' i = Some (placeholder (Some n))) ∧
    (∀ i, (i < n)%nat → span_of w' i = span_of w i) ∧
    fixture_teardown_span (plugin w') = None.
Proof.
  destruct w as [p [ss rep cur ff fl] env]. cbn [tracer spans reported plugin].
  pose proof (runtest_teardown_enter_fresh p ss [] rep cur ff fl env item) as Hen.
  cbn [app length] in Hen. rewrite app_nil_r in Hen.
  set (td := new_span (item_name item +:+ " teardown") (LocalSpan <$> cur)
               (item_attributes item "test teardown")) in *.
  destruct (finalizers_store fds
              (set_fixture_teardown_span (Some (length ss + 1)) p) ss
              [td; placeholder (Some (length ss + 0))] rep
              (Some (length ss + 0)) ff fl env 1)
    as (l' & ids & k' & Hrun & Hk' & Hsize & Hold & Hids & Hrest);
    [reflexivity..|].
  assert (l' !! 0 = Some td) as Htd by (by rewrite Hold by lia).
  cbn [length] in Hsize.
  eexists _, ids. split_and!.
  - cbn [notify]. eapply hookwrapper_ok; [exact Hen | exact Hrun |].
    eapply runtest_teardown_exit_fresh; [exact Htd | reflexivity | reflexivity].
  - cbn. rewrite length_app, length_insert, Hsize. lia.
  - cbn. rewrite Nat.add_0_r. by rewrite <- app_assoc.
  - unfold span_of. cbn [tracer spans].
    apply list_eq_Forall2. rewrite Forall2_fmap.
    eapply Forall2_impl; [exact Hids|].
    intros i fd (j & -> & Hle & Hj). cbn beta.
    rewrite lookup_fresh, list_lookup_insert_ne by lia.
    rewrite Hj. cbn. by rewrite finalized_label.
  - intros i Hi Hlt Hnot. unfold span_of. cbn [tracer spans].
    replace i with (length ss + (i - length ss)) by lia.
    rewrite lookup_fresh, list_lookup_insert_ne by lia.
    rewrite Nat.add_0_r in Hrest. apply Hrest; [lia | lia |].
    by replace (length ss + (i - length ss)) with i by lia.
  - intros i Hi. unfold span_of. cbn [tracer spans].
    by rewrite lookup_app_l by lia.
  - reflexivity.
Qed.

(** ** The span tree of an item *)

(** X4. The tree of spans of a passing item with two fixtures: the test
    span is a child of the run span; the spans of the setup, call and
    teardown phases are children of the test span; the fixture-setup spans
    are children of the setup-phase span; the fixture-teardown spans are
    children of the teardown-phase span.  A span is reported when it ends:
    the fixture setups, the setup phase, the call phase, the fixture
    teardowns, the teardown phase, and last the test. *)
Theorem item_spans_are_nested item a b request (w : World) session flag ca cb :
  session_span (plugin w) = Some session →
  has_error (plugin w) = Some flag →
  cached_result a = Some ca →
  cached_result b = Some cb →
  let n := length (spans (tracer w)) in
  ∃ w',
    notify (item_with_two_fixtures item a b request) w = (Ok tt, w') ∧
    (λ i, (λ s, (span_label s, sp_parent s)) <$> span_of w' i)
      <$> [n; n + 1; n + 2; n + 3; n + 4; n + 5; n + 6; n + 8] =
      [Some (item_name item, Some (AStr "test"), Some (LocalSpan session));
       Some (item_name item +:+ " setup", Some (AStr "test setup"),
             Some (LocalSpan n));
       Some (argname a +:+ " setup", Some (AStr "fixture setup"),
             Some (LocalSpan (n + 1)));
       Some (argname b +:+ " setup", Some (AStr "fixture setup"),
             Some (LocalSpan (n + 1)));
       Some (item_name item +:+ " call", Some (AStr "test call"),
             Some (LocalSpan n));
       Some (item_name item +:+ " teardown", Some (AStr "test teardown"),
             Some (LocalSpan n));
       Some (argname b +:+ " teardown", Some (AStr "fixture teardown"),
             Some (LocalSpan (n + 5)));
       Some (argname a +:+ " teardown", Some (AStr "fixture teardown"),
             Some (LocalSpan (n + 5)))] ∧
    reported (tracer w') =
      reported (tracer w)
      ++ [n + 2; n + 3; n + 1; n + 4; n + 6; n + 8; n + 5; n] ∧
    span_of w' (n + 7) = Some (placeholder (Some (n + 5))) ∧
    span_of w' (n + 9) = Some (placeholder (Some (n + 5))) ∧
    length (spans (tracer w')) = n + 10.
Proof.
  destruct w as [p [ss rep cur ff fl] env]. cbn [plugin tracer spans reported].
  intros Hsession Hflag Ha Hb. rewrite world_fresh.
  unfold item_with_two_fixtures, phase_end.
  eexists; split; [run_hooks|].
  cbn; unfold span_of; cbn.
  rewrite ?Nat.add_0_r, ?length_app, <- ?app_assoc, ?lookup_fresh,
    ?lookup_fresh0; cbn.
  unfold span_label; cbn. rewrite ?(right_id_L ∅ (∪)).
  rewrite ?item_attributes_span_type, ?fixture_attributes_span_type.
  by split_and!.
Qed.

Lemma item_spans_are_nested_witness :
  ∃ w',
    notify (item_with_two_fixtures sample_item
              (sample_fixture "A" (Some Cached)).1
              (sample_fixture "B" (Some Cached)).1 sample_request)
      started_world = (Ok tt, w') ∧
    reported (tracer w') = [3; 4; 2; 5; 7; 9; 6; 1].
Proof.
  pose proof (item_spans_are_nested sample_item
                (sample_fixture "A" (Some Cached)).1
                (sample_fixture "B" (Some Cached)).1 sample_request
                started_world 0 false Cached Cached
                eq_refl eq_refl eq_refl eq_refl) as H.
  destruct H as (w' & H1 & _ & H2 & _).
  exists w'. split; [exact H1 | exact H2].
Defined.

(** ** Whole runs *)

Lemma session_name_spec p t env :
  session_name (mkWorld p t env) = (Ok (run_name p env), mkWorld (named p env) t env).
Proof.
  unfold session_name, bind, hasattr, getattr, os_environ_get, on_plugin,
    run_name, named. cbn.
  destruct (_session_name p) as [name|] eqn:Hname; cbn.
  - by rewrite Hname.
  - unfold run_name. by rewrite Hname.
Qed.

Lemma sessionstart_fresh p ss l rep cur ff fl env context :
  trace_parent p = Some context →
  pytest_sessionstart (mkWorld p (mkTracer (ss ++ l) rep cur ff fl) env) =
  (Ok tt,
   mkWorld
     (set_has_error (Some false)
        (set_session_span (Some (length ss + length l)) (named p env)))
     (mkTracer
        (ss ++ (l ++ [new_span (run_name p env)
                        (match context with
                         | Some c => c
                         | None => LocalSpan <$> cur
                         end)
                        (<[PYTEST_SPAN_TYPE := AStr "run"]> ∅)]))
        rep cur ff fl) env).
Proof.
  intros Hctx. unfold pytest_sessionstart.
  eapply bind_ok; [apply session_name_spec|].
  eapply bind_ok.
  { unfold getattr. cbn [plugin].
    replace (trace_parent (named p env)) with (Some context); [reflexivity|].
    unfold named. by destruct (_session_name p). }
  eapply bind_ok.
  { unfold start_span, on_tracer. cbn [tracer].
    rewrite start_span_fresh. reflexivity. }
  reflexivity.
Qed.

Lemma sessionfinish_fresh p ss l rep cur ff fl env k b s :
  session_span p = Some (length ss + k) →
  has_error p = Some b →
  l !! k = Some s → sp_ended s = false →
  pytest_sessionfinish (mkWorld p (mkTracer (ss ++ l) rep cur ff fl) env) =
  (Ok tt,
   mkWorld p
     (mkTracer
        (ss ++ <[k := span_mark_ended
                         (span_set_status
                            (mkStatus (if b then ERROR else OK) None) s)]> l)
        (rep ++ [length ss + k]) cur ff (if ff then S fl else fl)) env).
Proof.
  intros Hsid Hb Hs He. unfold pytest_sessionfinish.
  eapply bind_ok; [unfold getattr; cbn; by rewrite Hsid|].
  eapply bind_ok; [unfold getattr; cbn; by rewrite Hb|].
  eapply bind_ok; [apply on_span_fresh|].
  eapply bind_ok; [unfold getattr; cbn; by rewrite Hsid|].
  eapply bind_ok.
  { eapply end_span_fresh;
      [by apply alter_recording | by rewrite set_status_ended]. }
  rewrite insert_alter_same.
  destruct ff; reflexivity.
Qed.

Ltac run_session_step :=
  lazymatch goal with
  | |- pytest_sessionstart _ = _ => eapply sessionstart_fresh; side_condition
  | |- pytest_sessionfinish _ = _ => eapply sessionfinish_fresh; side_condition
  | _ => run_step
  end.

Ltac run_session := repeat run_session_step.

(** X5. A run whose only item has a fixture that raises during setup: the
    test span ends with the status error, but no call-phase report arrives,
    the aggregate flag stays false, and [pytest_sessionfinish] gives the
    root span the status ok. *)
Theorem setup_failure_leaves_run_status_ok item fixturedef request e long
    (w : World) :
  is_Some (trace_parent (plugin w)) →
  let n := length (spans (tracer w)) in
  ∃ w',
    notify_all
      (run_of [item_with_failing_fixture item fixturedef request e long]) w
      = (Ok tt, w') ∧
    (λ s, (span_label s, status_code (sp_status s), sp_ended s))
      <$> span_of w' n =
      Some (run_name (plugin w) (environ w), Some (AStr "run"), OK, true) ∧
    (λ s, (span_label s, status_code (sp_status s), sp_ended s))
      <$> span_of w' (n + 1) =
      Some (item_name item, Some (AStr "test"), ERROR, true) ∧
    has_error (plugin w') = Some false ∧
    last (reported (tracer w')) = Some n.
Proof.
  destruct w as [p [ss rep cur ff fl] env]. cbn [plugin tracer spans environ].
  intros [context Hctx]. rewrite world_fresh.
  unfold run_of, item_with_failing_fixture, phase_end.
  destruct (cached_result fixturedef) as [c|] eqn:Hc;
    (eexists; split; [run_session|]).
  all: cbn; unfold span_of; cbn.
  all: rewrite ?Nat.add_0_r, ?length_app, <- ?app_assoc, ?lookup_fresh,
         ?lookup_fresh0; cbn.
  all: unfold span_label; cbn; rewrite ?item_attributes_span_type.
  all: split_and!; try reflexivity.
  all: by rewrite last_app.
Qed.

Lemma setup_failure_leaves_run_status_ok_witness :
  ∃ w',
    notify_all
      (run_of [item_with_failing_fixture sample_item
                 (sample_fixture "borked_fixture" (Some Cached)).1
                 sample_request sample_exception "long"])
      configured_world = (Ok tt, w') ∧
    has_error (plugin w') = Some false.
Proof.
  destruct (setup_failure_leaves_run_status_ok sample_item
              (sample_fixture "borked_fixture" (Some Cached)).1
              sample_request sample_exception "long" configured_world)
    as (w' & H1 & _ & _ & H2 & _).
  - by exists None.
  - exists w'. split; [exact H1 | exact H2].
Defined.

Lemma item_without_fixtures_run item v p ss rep cur ff fl env sid b :
  session_span p = Some sid →
  has_error p = Some b →
  ∃ l,
    notify (item_without_fixtures item v)
      (mkWorld p (mkTracer ss rep cur ff fl) env) =
    (Ok tt,
     mkWorld
       (set_fixture_teardown_span None
          (set_has_error (Some (b || verdict_failed v)) p))
       (mkTracer (ss ++ l)
          (rep ++ [length ss + 1; length ss + 2; length ss + 3; length ss])
          cur ff fl) env) ∧
    length l = 5.
Proof.
  intros Hsid Hb. rewrite world_fresh.
  unfold item_without_fixtures, phase_end.
  destruct v; (eexists; split; cycle 1);
    [ | etransitivity; [run_hooks|] | | etransitivity; [run_hooks|]
      | | etransitivity; [run_hooks|] ].
  all: try (cbn; rewrite ?Nat.add_0_r, <- ?app_assoc; cbn; reflexivity).
  all: reflexivity.
Qed.

Lemma notify_all_app ns1 ns2 (w w1 : World) r :
  notify_all ns1 w = (Ok tt, w1) → notify_all ns2 w1 = r →
  notify_all (ns1 ++ ns2) w = r.
Proof.
  unfold notify_all. rewrite map_app. apply in_order_app_ok.
Qed.

Lemma items_without_fixtures_run ivs : ∀ p ss rep cur ff fl env sid b,
  session_span p = Some sid →
  has_error p = Some b →
  ∃ p' l ids,
    notify_all (items_without_fixtures ivs)
      (mkWorld p (mkTracer ss rep cur ff fl) env) =
    (Ok tt, mkWorld p' (mkTracer (ss ++ l) (rep ++ ids) cur ff fl) env) ∧
    session_span p' = Some sid ∧
    has_error p' = Some (b || existsb (λ iv, verdict_failed iv.2) ivs) ∧
    length l = 5 * length ivs ∧
    length ids = 4 * length ivs.
Proof.
  induction ivs as [|[item v] ivs IH];
    intros p ss rep cur ff fl env sid b Hsid Hb.
  - exists p, [], []. rewrite !app_nil_r, orb_false_r. by split_and!.
  - destruct (item_without_fixtures_run item v p ss rep cur ff fl env sid b
                Hsid Hb) as (l1 & Hone & Hl1).
    destruct (IH (set_fixture_teardown_span None
                    (set_has_error (Some (b || verdict_failed v)) p))
                (ss ++ l1)
                (rep ++ [length ss + 1; length ss + 2; length ss + 3; length ss])
                cur ff fl env sid (b || verdict_failed v))
      as (p' & l2 & ids & Hrest & Hsid' & Hb' & Hl2 & Hids); [done..|].
    exists p', (l1 ++ l2),
      ([length ss + 1; length ss + 2; length ss + 3; length ss] ++ ids).
    split_and!.
    + change (items_without_fixtures ((item, v) :: ivs))
        with (item_without_fixtures item v :: items_without_fixtures ivs).
      rewrite notify_all_cons. eapply bind_ok; [exact Hone|].
      rewrite Hrest. by rewrite !app_assoc.
    + exact Hsid'.
    + rewrite Hb'. cbn. by rewrite orb_assoc.
    + rewrite length_app, Hl1, Hl2. cbn [length]. lia.
    + rewrite length_app, Hids. cbn [length]. lia.
Qed.

(** X6. A run of items that use no fixture, each with its call verdict:
    nothing raises; [pytest_sessionfinish] gives the root span the status
    error exactly when the call phase of some item failed (a skipped item
    does not count), and ok otherwise; four spans are reported per item, and
    the root span is reported last. *)
Theorem run_status_is_error_iff_a_call_failed ivs (w : World) :
  is_Some (trace_parent (plugin w)) →
  let n := length (spans (tracer w)) in
  ∃ w' ids,
    notify_all (run_of (items_without_fixtures ivs)) w = (Ok tt, w') ∧
    (λ s, (span_label s, sp_status s, sp_ended s)) <$> span_of w' n =
      Some (run_name (plugin w) (environ w), Some (AStr "run"),
            mkStatus
              (if existsb (λ iv, verdict_failed iv.2) ivs then ERROR else OK)
              None,
            true) ∧
    reported (tracer w') = reported (tracer w) ++ ids ++ [n] ∧
    length ids = 4 * length ivs ∧
    length (spans (tracer w')) = n + 1 + 5 * length ivs.
Proof.
  destruct w as [p [ss rep cur ff fl] env]. cbn [plugin tracer spans environ reported].
  intros [context Hctx].
  pose proof (sessionstart_fresh p ss [] rep cur ff fl env context Hctx) as Hstart.
  rewrite app_nil_r in Hstart. cbn [app] in Hstart.
  set (root := new_span (run_name p env) _ _) in Hstart.
  set (p1 := set_has_error _ _) in Hstart.
  destruct (items_without_fixtures_run ivs p1 (ss ++ [root]) rep cur ff fl env
              (length ss + length (@nil Span)) false)
    as (p' & l & ids & Hitems & Hsid & Hb & Hl & Hids); [reflexivity..|].
  rewrite <- app_assoc in Hitems. cbn [orb] in Hb.
  pose proof (sessionfinish_fresh p' ss ([root] ++ l) (rep ++ ids) cur ff fl env
                (length (@nil Span)) _ root Hsid Hb eq_refl eq_refl) as Hfinish.
  eexists _, ids. split_and!.
  - unfold run_of. rewrite notify_all_cons. eapply bind_ok; [exact Hstart|].
    eapply notify_all_app; [exact Hitems|].
    rewrite notify_all_cons. eapply bind_ok; [exact Hfinish|]. reflexivity.
  - unfold span_of. cbn [tracer spans]. rewrite lookup_fresh0.
    by destruct (existsb _ ivs).
  - cbn [tracer reported]. by rewrite <- app_assoc, Nat.add_0_r.
  - exact Hids.
  - cbn [tracer spans]. rewrite length_app, length_insert, length_app, Hl.
    cbn [length]. lia.
Qed.

Lemma run_status_is_error_iff_a_call_failed_witness :
  ∃ w' ids,
    notify_all
      (run_of (items_without_fixtures
                 [(sample_item, Passed);
                  (sample_item, Failed sample_exception "long")]))
      configured_world = (Ok tt, w') ∧
    (λ s, (span_label s, sp_status s, sp_ended s)) <$> span_of w' 0 =
      Some ("test run", Some (AStr "run"), mkStatus ERROR None, true) ∧
    reported (tracer w') = ids ++ [0].
Proof.
  destruct (run_status_is_error_iff_a_call_failed
              [(sample_item, Passed);
               (sample_item, Failed sample_exception "long")]
              configured_world)
    as (w' & ids & H1 & H2 & H3 & _).
  - by exists None.
  - exists w', ids. split_and!; [exact H1 | exact H2 | exact H3].
Defined.

(** ** The name and the root span of the run *)

(** X7. The name of the run is read once: the first read takes
    [PYTEST_RUN_NAME] from the environment (whatever its value, the empty
    string included) or "test run" when the variable is not set, and keeps
    it in the plugin; every later read returns the kept name and changes
    nothing, whatever the environment has become. *)
Theorem session_name_is_read_once p t env :
  _session_name p = None →
  ∃ name p1,
    session_name (mkWorld p t env) = (Ok name, mkWorld p1 t env) ∧
    name = default "test run" (env !! "PYTEST_RUN_NAME") ∧
    p1 = set_session_name (Some name) p ∧
    ∀ t' env',
      session_name (mkWorld p1 t' env') = (Ok name, mkWorld p1 t' env').
Proof.
  intros Hnone. eexists _, _. split_and!.
  - rewrite session_name_spec. unfold named, run_name. rewrite Hnone.
    reflexivity.
  - reflexivity.
  - reflexivity.
  - intros t' env'. by rewrite session_name_spec.
Qed.

Lemma session_name_is_read_once_witness :
  ∃ name p1,
    session_name
      (fresh_world OpenTelemetryPlugin false {[ "PYTEST_RUN_NAME" := "nightly" ]})
      = (Ok name,
         mkWorld p1 (fresh_tracer false) {[ "PYTEST_RUN_NAME" := "nightly" ]}) ∧
    name = "nightly".
Proof.
  destruct (session_name_is_read_once (fresh_plugin OpenTelemetryPlugin)
              (fresh_tracer false) {[ "PYTEST_RUN_NAME" := "nightly" ]} eq_refl)
    as (name & p1 & H1 & H2 & _).
  exists name, p1. split; [exact H1 | exact H2].
Defined.

(** X8. [pytest_sessionstart] after [pytest_configure]: one span is started
    and nothing is reported; the span carries the name of the run and the
    single attribute [pytest.span_type = "run"], is not ended, has no status
    and no event; its parent is the configured trace parent, and the ambient
    current span when none is configured; the plugin holds it as its session
    span, and the aggregate flag is false whatever it was.  When
    [pytest_configure] has not run, the hook raises an [AttributeError] and
    starts no span. *)
Theorem sessionstart_starts_the_root_span (w : World) :
  (∀ context, trace_parent (plugin w) = Some context →
     ∃ w',
       pytest_sessionstart w = (Ok tt, w') ∧
       spans (tracer w') =
         spans (tracer w) ++
         [new_span (run_name (plugin w) (environ w))
            (match context with
             | Some c => c
             | None => LocalSpan <$> current_span (tracer w)
             end)
            (<[PYTEST_SPAN_TYPE := AStr "run"]> ∅)] ∧
       reported (tracer w') = reported (tracer w) ∧
       current_span (tracer w') = current_span (tracer w) ∧
       session_span (plugin w') = Some (length (spans (tracer w))) ∧
       has_error (plugin w') = Some false) ∧
  (trace_parent (plugin w) = None →
     ∃ w',
       pytest_sessionstart w = (Raised (AttributeError "trace_parent"), w') ∧
       tracer w' = tracer w ∧
       session_span (plugin w') = session_span (plugin w) ∧
       has_error (plugin w') = has_error (plugin w)).
Proof.
  destruct w as [p [ss rep cur ff fl] env]. cbn [plugin tracer environ spans].
  split.
  - intros context Hctx. eexists. split.
    + rewrite world_fresh. by apply sessionstart_fresh.
    + cbn. rewrite Nat.add_0_r. by split_and!.
  - intros Hnone. eexists. split.
    + unfold pytest_sessionstart.
      eapply bind_ok; [apply session_name_spec|].
      eapply bind_raised. unfold getattr. cbn [plugin].
      replace (trace_parent (named p env)) with (@None (option Context));
        [reflexivity|].
      unfold named. by destruct (_session_name p).
    + cbn. unfold named. by destruct (_session_name p).
Qed.

Lemma sessionstart_starts_the_root_span_witness :
  ∃ w',
    pytest_sessionstart configured_world = (Ok tt, w') ∧
    session_span (plugin w') = Some 0 ∧
    pytest_sessionstart (fresh_world OpenTelemetryPlugin false ∅)
    = (Raised (AttributeError "trace_parent"),
       mkWorld (set_session_name (Some "test run")
                  (fresh_plugin OpenTelemetryPlugin))
         (fresh_tracer false) ∅).
Proof.
  destruct (sessionstart_starts_the_root_span configured_world) as [H _].
  destruct (H None eq_refl) as (w' & H1 & _ & _ & _ & H2 & _).
  exists w'. split_and!; [exact H1 | exact H2 | reflexivity].
Defined.

(** ** Configuration *)

Lemma get_trace_parent_pure cls config (w : World) :
  ∃ tp, get_trace_parent cls config w = (Ok tp, w).
Proof.
  unfold get_trace_parent, base_get_trace_parent, bind, os_environ_get, ret.
  destruct cls; [|destruct (walrus_dict (workerinput config))];
    destruct (walrus_str (opt_trace_parent config));
    try destruct (walrus_str (environ w !! "TRACEPARENT")); eauto.
Qed.

Lemma configure_spec config p t env :
  ∃ tp,
    get_trace_parent (plugin_class p) config (mkWorld p t env)
      = (Ok tp, mkWorld p t env) ∧
    pytest_configure config (mkWorld p t env) =
    (Ok tt,
     mkWorld
       (match plugin_class p with
        | OpenTelemetryPlugin => set_trace_parent (Some tp) p
        | XdistOpenTelemetryPlugin =>
            set_session_name
              (match default ∅ (workerinput config) !! "workerid" with
               | Some (String c id) => Some ("test worker " +:+ String c id)
               | _ => Some (run_name p env)
               end)
              (set_trace_parent (Some tp) p)
        end)
       (tracer_install_provider t) env).
Proof.
  destruct (get_trace_parent_pure (plugin_class p) config (mkWorld p t env))
    as (tp & Htp).
  exists tp. split; [exact Htp|]. cbn [plugin] in Htp.
  assert (base_pytest_configure config (mkWorld p t env)
          = (Ok tt, mkWorld (set_trace_parent (Some tp) p)
                      (tracer_install_provider t) env)) as Hbase.
  { unfold base_pytest_configure.
    eapply bind_ok; [reflexivity|]. cbn [plugin].
    eapply bind_ok; [exact Htp|].
    eapply bind_ok; [reflexivity|].
    eapply bind_ok; [by destruct (opt_export_traces config)|].
    reflexivity. }
  unfold pytest_configure. eapply bind_ok; [reflexivity|]. cbn [plugin].
  destruct (plugin_class p) eqn:Hcls; [exact Hbase|].
  eapply bind_ok; [exact Hbase|].
  destruct (default ∅ (workerinput config) !! "workerid") as [[|c id]|] eqn:Hid;
    cbn [walrus_str truthy_str].
  - eapply bind_ok; [apply session_name_spec|].
    unfold on_plugin. cbn. do 2 f_equal.
    unfold named, run_name, set_session_name, set_trace_parent. cbn.
    by destruct (_session_name p).
  - eapply bind_ok; [reflexivity|]. reflexivity.
  - eapply bind_ok; [apply session_name_spec|].
    unfold on_plugin. cbn. do 2 f_equal.
    unfold named, run_name, set_session_name, set_trace_parent. cbn.
    by destruct (_session_name p).
Qed.

(** X9. What [pytest_configure] has stored in the plugin when it returns:
    under [trace_parent], what [get_trace_parent] of the plugin's class
    finds for the configuration; the session span, the error flag and the
    placeholder attribute are as they were.  The base plugin keeps the name
    of the run it has, if any.  The xdist plugin names the run: "test worker
    <id>" when the worker input carries a non-empty [workerid], and
    otherwise the name the run would have had anyway.  The provider the
    configurator has installed can be flushed; no span was started. *)
Theorem configure_stores_parent_and_names_worker config (w w' : World) :
  pytest_configure config w = (Ok tt, w') →
  ∃ tp,
    get_trace_parent (plugin_class (plugin w)) config w = (Ok tp, w) ∧
    trace_parent (plugin w') = Some tp ∧
    plugin_class (plugin w') = plugin_class (plugin w) ∧
    session_span (plugin w') = session_span (plugin w) ∧
    has_error (plugin w') = has_error (plugin w) ∧
    fixture_teardown_span (plugin w') = fixture_teardown_span (plugin w) ∧
    _session_name (plugin w') =
      match plugin_class (plugin w) with
      | OpenTelemetryPlugin => _session_name (plugin w)
      | XdistOpenTelemetryPlugin =>
          match default ∅ (workerinput config) !! "workerid" with
          | Some (String c id) => Some ("test worker " +:+ String c id)
          | _ => Some (run_name (plugin w) (environ w))
          end
      end ∧
    has_force_flush (tracer w') = true ∧
    spans (tracer w') = spans (tracer w).
Proof.
  destruct w as [p t env]. cbn [plugin environ].
  destruct (configure_spec config p t env) as (tp & Htp & Hrun).
  rewrite Hrun. intros [= <-]. exists tp. split; [exact Htp|].
  cbn [plugin]. destruct (plugin_class p) eqn:Hcls; cbn; by split_and!.
Qed.

Lemma configure_stores_parent_and_names_worker_witness :
  ∃ w',
    pytest_configure
      (mkConfig None
         (Some {[ "workerid" := "gw0"; "traceparent" := sample_traceparent ]})
         false)
      (fresh_world XdistOpenTelemetryPlugin false ∅) = (Ok tt, w') ∧
    trace_parent (plugin w') =
      Some (Some (Some (RemoteSpan "0af7651916cd43dd8448eb211c80319c"
                          "b7ad6b7169203331" "01"))) ∧
    _session_name (plugin w') = Some "test worker gw0".
Proof.
  destruct (configure_spec
              (mkConfig None
                 (Some {[ "workerid" := "gw0";
                          "traceparent" := sample_traceparent ]}) false)
              (fresh_plugin XdistOpenTelemetryPlugin) (fresh_tracer false) ∅)
    as (tp0 & _ & Hrun).
  eexists. split; [exact Hrun|].
  destruct (configure_stores_parent_and_names_worker
              (mkConfig None
                 (Some {[ "workerid" := "gw0";
                          "traceparent" := sample_traceparent ]}) false)
              (fresh_world XdistOpenTelemetryPlugin false ∅) _ Hrun)
    as (tp & H1 & H2 & _ & _ & _ & _ & H3 & _).
  split; [|exact H3].
  rewrite H2. unfold get_trace_parent in H1. cbn [plugin_class plugin] in H1.
  cbn [fresh_world fresh_plugin workerinput] in H1.
  rewrite walrus_dict_present in H1 by apply insert_non_empty.
  by injection H1 as <-.
Defined.

(** ** Hooks outside their normal conditions *)

Lemma alter_ended (f : Span → Span) sid (ss : list Span) s :
  ss !! sid = Some s → sp_ended s = true →
  alter (while_recording f) sid ss = ss.
Proof.
  intros Hs He. apply list_eq. intros i.
  rewrite list_lookup_alter. case_decide as Heq; [|done]. subst i.
  rewrite Hs. cbn. unfold while_recording. by rewrite He.
Qed.

(** X10. [pytest_exception_interact] outside its normal conditions: without
    exception information it fails its assertion and changes nothing; with
    exception information but no current span, or with a current span that
    has already ended, it returns normally and changes nothing: no event is
    recorded and no status is set on any span. *)
Theorem exception_interact_edge_cases report (w : World) :
  pytest_exception_interact (mkCallInfo None) report w
    = (Raised AssertionError, w) ∧
  (∀ e, current_span (tracer w) = None →
     pytest_exception_interact (mkCallInfo (Some e)) report w = (Ok tt, w)) ∧
  (∀ e sid s, current_span (tracer w) = Some sid →
     span_of w sid = Some s → sp_ended s = true →
     pytest_exception_interact (mkCallInfo (Some e)) report w = (Ok tt, w)).
Proof.
  destruct w as [p [ss rep cur ff fl] env]. unfold span_of.
  cbn [tracer spans current_span]. split_and!.
  - reflexivity.
  - intros e ->. reflexivity.
  - intros e sid s -> Hs He.
    unfold pytest_exception_interact, bind, get_current_span, on_span,
      on_tracer_, on_tracer, tracer_update, with_spans. cbn.
    by rewrite !(alter_ended _ sid ss s).
Qed.

Lemma exception_interact_edge_cases_witness :
  pytest_exception_interact (mkCallInfo (Some sample_exception))
    (mkTestReport "call" "failed" "long") started_world
  = (Ok tt, started_world).
Proof.
  destruct (exception_interact_edge_cases (mkTestReport "call" "failed" "long")
              started_world) as (_ & H & _).
  apply H. reflexivity.
Defined.

(** X11. Before [pytest_sessionstart] has run the plugin has neither a
    session span nor an error flag: [pytest_runtest_protocol] then raises an
    [AttributeError] before it starts a span, and nothing nested in it is
    processed; [pytest_sessionfinish] raises as well; a call-phase report
    raises without touching the current span; the world is left as it
    was. *)
Theorem hooks_before_session_start_raise (w : World) :
  (session_span (plugin w) = None →
   (∀ item inner,
      notify (RuntestProtocol item inner) w
      = (Raised (AttributeError "session_span"), w)) ∧
   pytest_sessionfinish w = (Raised (AttributeError "session_span"), w)) ∧
  (has_error (plugin w) = None →
   ∀ report, when report = "call" →
     pytest_runtest_logreport report w
     = (Raised (AttributeError "has_error"), w)).
Proof.
  split.
  - intros Hnone. split.
    + intros item inner. cbn [notify]. unfold hookwrapper.
      apply bind_raised. unfold pytest_runtest_protocol_enter.
      apply bind_raised. unfold getattr. by rewrite Hnone.
    + unfold pytest_sessionfinish. apply bind_raised.
      unfold getattr. by rewrite Hnone.
  - intros Hnone report Hwhen. unfold pytest_runtest_logreport.
    rewrite Hwhen. cbn. apply bind_raised. unfold getattr. by rewrite Hnone.
Qed.

Lemma hooks_before_session_start_raise_witness :
  notify (RuntestProtocol sample_item
            [RuntestSetup sample_item []; RuntestCall sample_item []])
    configured_world
  = (Raised (AttributeError "session_span"), configured_world).
Proof.
  destruct (hooks_before_session_start_raise configured_world) as [H _].
  destruct (H eq_refl) as [Hprotocol _].
  apply Hprotocol.
Defined.

(** X12. A call-phase report while a recording span is current: the flag
    of the plugin takes in whether the outcome is "failed"; the status of
    the span becomes error when the outcome is "failed" and ok for any other
    outcome ("passed", "skipped"), without a description, unless the status
    of the span is already ok, which then stays; the name, the parent, the
    attributes and the events of the span stay and it goes on recording; no
    other span changes and nothing is reported. *)
Theorem call_report_sets_status_of_current_span report (w : World) sid s flag :
  when report = "call" →
  has_error (plugin w) = Some flag →
  current_span (tracer w) = Some sid →
  span_of w sid = Some s →
  sp_ended s = false →
  let failed := String.eqb (outcome report) "failed" in
  ∃ w' s',
    pytest_runtest_logreport report w = (Ok tt, w') ∧
    has_error (plugin w') = Some (flag || failed) ∧
    span_of w' sid = Some s' ∧
    (status_code (sp_status s) ≠ OK →
       sp_status s' = mkStatus (if failed then ERROR else OK) None) ∧
    (status_code (sp_status s) = OK → sp_status s' = sp_status s) ∧
    (sp_name s', sp_parent s', sp_attributes s', sp_events s', sp_ended s')
      = (sp_name s, sp_parent s, sp_attributes s, sp_events s, false) ∧
    (∀ j, j ≠ sid → span_of w' j = span_of w j) ∧
    reported (tracer w') = reported (tracer w) ∧
    current_span (tracer w') = Some sid.
Proof.
  intros Hwhen Hflag Hcur Hs He failed.
  destruct w as [p [ss rep cur ff fl] env]. unfold span_of in *. cbn in *.
  subst cur.
  eexists _, (span_set_status
                (mkStatus (if failed then ERROR else OK) None) s).
  split.
  - unfold pytest_runtest_logreport. rewrite Hwhen.
    change (String.eqb "call" "call") with true. cbn [negb].
    eapply bind_ok; [unfold getattr; cbn; by rewrite Hflag|].
    eapply bind_ok; [reflexivity|].
    eapply bind_ok; [reflexivity|]. cbn [current_span tracer].
    apply on_span_spec.
  - cbn. split_and!; try reflexivity.
    + by apply alter_recording.
    + intros Hnot. apply set_status_takes; [exact Hnot | by destruct failed].
    + intros Hok. by rewrite set_status_final.
    + by rewrite set_status_name, set_status_parent, set_status_attributes,
        set_status_events, set_status_ended, He.
    + intros j Hj. by rewrite list_lookup_alter_ne.
Qed.

Lemma call_report_sets_status_of_current_span_witness :
  ∃ w' s',
    pytest_runtest_logreport (mkTestReport "call" "failed" "")
      (mkWorld (plugin started_world)
         (tracer_attach 0 (tracer started_world)).2 (environ started_world))
      = (Ok tt, w') ∧
    has_error (plugin w') = Some true ∧
    span_of w' 0 = Some s' ∧
    sp_status s' = mkStatus ERROR None.
Proof.
  destruct (call_report_sets_status_of_current_span
              (mkTestReport "call" "failed" "")
              (mkWorld (plugin started_world)
                 (tracer_attach 0 (tracer started_world)).2
                 (environ started_world))
              0 (new_span "test run" None (<[PYTEST_SPAN_TYPE := AStr "run"]> ∅))
              false eq_refl eq_refl eq_refl eq_refl eq_refl)
    as (w' & s' & H1 & H2 & H3 & H4 & _).
  exists w', s'. split_and!; [exact H1 | exact H2 | exact H3 |].
  by apply H4.
Defined.

(** ** Hooks that bracket one span *)

(** X13. The setup-phase, call-phase and fixture-setup hooks, with nothing
    nested in them, in any world (no session is needed): they never raise;
    each starts exactly one span under the span that is current, named
    after the item or fixture and the phase, and has ended and reported it
    when it returns; the plugin's attributes and the current span are as
    before. *)
Theorem bracket_hooks_report_one_span (w : World) :
  (∀ item,
     notify (RuntestSetup item []) w =
     (Ok tt, bracketed (item_name item +:+ " setup")
               (item_attributes item "test setup") w)) ∧
  (∀ item,
     notify (RuntestCall item []) w =
     (Ok tt, bracketed (item_name item +:+ " call")
               (item_attributes item "test call") w)) ∧
  (∀ fixturedef request,
     notify (FixtureSetup fixturedef request []) w =
     (Ok tt, bracketed (argname fixturedef +:+ " setup")
               (fixture_attributes fixturedef request "fixture setup") w)).
Proof.
  destruct w as [p [ss rep cur ff fl] env]. unfold bracketed.
  cbn [plugin tracer environ spans reported current_span has_force_flush flushes].
  split_and!; intros; rewrite world_fresh;
    (etransitivity; [run_hooks|]); cbn; by rewrite Nat.add_0_r.
Qed.

(** ** Location attributes *)

Lemma item_location_attributes item st1 st2 :
  delete PYTEST_SPAN_TYPE (item_attributes item st1)
  = delete PYTEST_SPAN_TYPE (item_attributes item st2).
Proof.
  unfold item_attributes.
  destruct (item_location item) as [[filepath [n|]] ?];
    [destruct (truthy_int n)|];
    apply map_eq; intros k;
    repeat (first [rewrite lookup_delete | rewrite lookup_insert]; case_decide);
    congruence.
Qed.

Lemma fixture_location_attributes fd rq st1 st2 :
  delete PYTEST_SPAN_TYPE (fixture_attributes fd rq st1)
  = delete PYTEST_SPAN_TYPE (fixture_attributes fd rq st2).
Proof.
  unfold fixture_attributes.
  destruct (has_location fd); [destruct (fslineno fd) as [filepath n];
                               destruct (truthy_int n)|];
    apply map_eq; intros k;
    repeat (first [rewrite lookup_delete | rewrite lookup_insert]; case_decide);
    congruence.
Qed.

(** X14. The hooks agree on where an item and a fixture are: in the spans of
    an item that uses a fixture, the test span and the three phase spans
    carry the same attributes apart from the kind of span (the file path,
    the function name and the node id of the item, and its line number when
    there is one), and the fixture's setup and teardown spans carry the same
    attributes apart from the kind of span (none at all for a fixture
    without a location). *)
Theorem spans_agree_on_locations item fixturedef request (w : World)
    session flag c :
  session_span (plugin w) = Some session →
  has_error (plugin w) = Some flag →
  cached_result fixturedef = Some c →
  let n := length (spans (tracer w)) in
  ∃ w' item_location_attrs fixture_location_attrs,
    notify (item_with_fixture item fixturedef request) w = (Ok tt, w') ∧
    (λ i, location_attributes <$> span_of w' i) <$> [n; n + 1; n + 3; n + 4]
      = replicate 4 (Some item_location_attrs) ∧
    (λ i, location_attributes <$> span_of w' i) <$> [n + 2; n + 5]
      = replicate 2 (Some fixture_location_attrs) ∧
    item_location_attrs !! CODE_FILEPATH = Some (AStr (item_location item).1.1) ∧
    item_location_attrs !! CODE_FUNCTION = Some (AStr (item_name item)) ∧
    item_location_attrs !! "pytest.nodeid" = Some (AStr (item_nodeid item)) ∧
    (has_location fixturedef = false → fixture_location_attrs = ∅) ∧
    (has_location fixturedef = true →
     is_Some (fixture_location_attrs !! CODE_FILEPATH)).
Proof.
  destruct w as [p [ss rep cur ff fl] env]. cbn [plugin tracer spans reported].
  intros Hsession Hflag Hc. rewrite world_fresh.
  unfold item_with_fixture, phase_end.
  eexists _, (delete PYTEST_SPAN_TYPE (item_attributes item "test")),
    (delete PYTEST_SPAN_TYPE
       (fixture_attributes fixturedef request "fixture setup")).
  split; [run_hooks|].
  cbn; unfold span_of; cbn.
  rewrite ?Nat.add_0_r, ?length_app, <- ?app_assoc, ?lookup_fresh,
    ?lookup_fresh0; cbn.
  unfold location_attributes; cbn. rewrite ?(right_id_L ∅ (∪)).
  change "pytest.span_type" with PYTEST_SPAN_TYPE.
  rewrite (item_location_attributes item "test setup" "test").
  rewrite (item_location_attributes item "test call" "test").
  rewrite (item_location_attributes item "test teardown" "test").
  rewrite (fixture_location_attributes fixturedef request
             "fixture teardown" "fixture setup").
  split_and!; try reflexivity.
  - unfold item_attributes.
    destruct (item_location item) as [[filepath [k|]] ?];
      [destruct (truthy_int k)|]; reflexivity.
  - unfold item_attributes.
    destruct (item_location item) as [[filepath [k|]] ?];
      [destruct (truthy_int k)|]; reflexivity.
  - unfold item_attributes.
    destruct (item_location item) as [[filepath [k|]] ?];
      [destruct (truthy_int k)|]; reflexivity.
  - intros Hloc. unfold fixture_attributes. rewrite Hloc.
    by rewrite delete_insert_eq, delete_empty.
  - intros Hloc. unfold fixture_attributes. rewrite Hloc.
    destruct (fslineno fixturedef) as [filepath k].
    destruct (truthy_int k); by eexists.
Qed.

Lemma spans_agree_on_locations_witness :
  ∃ w' item_location_attrs fixture_location_attrs,
    notify (item_with_fixture sample_item (sample_fixture "A" (Some Cached)).1
              sample_request) started_world = (Ok tt, w') ∧
    (λ i, location_attributes <$> span_of w' i) <$> [1; 2; 4; 5]
      = replicate 4 (Some item_location_attrs) ∧
    (λ i, location_attributes <$> span_of w' i) <$> [3; 6]
      = replicate 2 (Some fixture_location_attrs).
Proof.
  destruct (spans_agree_on_locations sample_item
              (sample_fixture "A" (Some Cached)).1 sample_request
              started_world 0 false Cached eq_refl eq_refl eq_refl)
    as (w' & ia & fa & H1 & H2 & H3 & _).
  exists w', ia, fa. split_and!; [exact H1 | exact H2 | exact H3].
Defined.

(** ** The parent of the root span *)

(** The parent the root span gets from a value of [--trace-parent] or of
    [TRACEPARENT]. *)
Lemma extract_header header :
  propagate_extract {[ "traceparent" := header ]} =
  match parse_traceparent header with
  | Some (trace_id, span_id, trace_flags) =>
      Some (RemoteSpan trace_id span_id trace_flags)
  | None => None
  end.
Proof. unfold propagate_extract. by rewrite lookup_singleton_eq. Qed.

Lemma base_configure_with_option tp wi export p t env :
  plugin_class p = OpenTelemetryPlugin → tp ≠ "" →
  pytest_configure (mkConfig (Some tp) wi export) (mkWorld p t env) =
  (Ok tt,
   mkWorld
     (set_trace_parent
        (Some (Some (propagate_extract {[ "traceparent" := tp ]}))) p)
     (tracer_install_provider t) env).
Proof.
  intros Hcls Htp.
  destruct (configure_spec (mkConfig (Some tp) wi export) p t env)
    as (ctx & Hctx & Hrun).
  rewrite Hrun, Hcls. rewrite Hcls in Hctx.
  unfold get_trace_parent, base_get_trace_parent in Hctx.
  cbn [opt_trace_parent] in Hctx.
  rewrite walrus_str_present in Hctx by done.
  by injection Hctx as <-.
Qed.

Lemma base_configure_without_parent wi export p t env :
  plugin_class p = OpenTelemetryPlugin →
  env !! "TRACEPARENT" = None →
  pytest_configure (mkConfig None wi export) (mkWorld p t env) =
  (Ok tt, mkWorld (set_trace_parent (Some None) p)
            (tracer_install_provider t) env).
Proof.
  intros Hcls Henv.
  destruct (configure_spec (mkConfig None wi export) p t env)
    as (ctx & Hctx & Hrun).
  rewrite Hrun, Hcls. rewrite Hcls in Hctx.
  unfold get_trace_parent, base_get_trace_parent, bind, os_environ_get in Hctx.
  cbn [opt_trace_parent walrus_str environ] in Hctx. rewrite Henv in Hctx.
  by injection Hctx as <-.
Qed.

(** X15. From the command line to the root span, for the base plugin and a
    non-empty [--trace-parent] option: [pytest_configure] followed by
    [pytest_sessionstart] starts the root span, whatever span is current,
    as a child of the remote span that the option names by its trace id and
    span id when the option is a header the trace-context propagator
    accepts, and with no parent at all when it is not.  With no option and
    no [TRACEPARENT] variable, the root span is a child of the span that is
    current, and a root of its own when none is. *)
Theorem root_span_parent_comes_from_configuration (w : World) wi export :
  plugin_class (plugin w) = OpenTelemetryPlugin →
  let n := length (spans (tracer w)) in
  (∀ tp, tp ≠ "" →
     ∃ w',
       notify_all [Configure (mkConfig (Some tp) wi export); SessionStart] w
         = (Ok tt, w') ∧
       sp_parent <$> span_of w' n =
         Some (match parse_traceparent tp with
               | Some (trace_id, span_id, trace_flags) =>
                   Some (RemoteSpan trace_id span_id trace_flags)
               | None => None
               end) ∧
       session_span (plugin w') = Some n) ∧
  (environ w !! "TRACEPARENT" = None →
     ∃ w',
       notify_all [Configure (mkConfig None wi export); SessionStart] w
         = (Ok tt, w') ∧
       sp_parent <$> span_of w' n = Some (LocalSpan <$> current_span (tracer w)) ∧
       session_span (plugin w') = Some n).
Proof.
  destruct w as [p [ss rep cur ff fl] env]. cbn [plugin tracer spans environ].
  intros Hcls. split.
  - intros tp Htp. eexists. split.
    + unfold notify_all. cbn [map notify].
      eapply in_order_cons_ok; [by apply base_configure_with_option|].
      eapply in_order_cons_ok; [|reflexivity].
      unfold tracer_install_provider. cbn [spans reported current_span flushes].
      rewrite world_fresh. by eapply sessionstart_fresh.
    + unfold span_of. cbn [tracer spans plugin]. rewrite lookup_fresh0.
      cbn [app lookup list_lookup fmap option_fmap option_map].
      rewrite extract_header. split; [reflexivity|].
      cbn. by rewrite Nat.add_0_r.
  - intros Henv. eexists. split.
    + unfold notify_all. cbn [map notify].
      eapply in_order_cons_ok; [by apply base_configure_without_parent|].
      eapply in_order_cons_ok; [|reflexivity].
      unfold tracer_install_provider. cbn [spans reported current_span flushes].
      rewrite world_fresh. by eapply sessionstart_fresh.
    + unfold span_of. cbn. rewrite lookup_fresh0, Nat.add_0_r. by split.
Qed.

Lemma root_span_parent_comes_from_configuration_witness :
  (∃ w',
     notify_all [Configure (mkConfig (Some sample_traceparent) None false);
                 SessionStart]
       (fresh_world OpenTelemetryPlugin false ∅) = (Ok tt, w') ∧
     sp_parent <$> span_of w' 0 =
       Some (Some (RemoteSpan "0af7651916cd43dd8448eb211c80319c"
                     "b7ad6b7169203331" "01"))) ∧
  (∃ w',
     notify_all [Configure (mkConfig (Some "00-aa-bb-01") None false);
                 SessionStart]
       (fresh_world OpenTelemetryPlugin false ∅) = (Ok tt, w') ∧
     sp_parent <$> span_of w' 0 = Some None).
Proof.
  destruct (root_span_parent_comes_from_configuration
              (fresh_world OpenTelemetryPlugin false ∅) None false eq_refl)
    as [H _].
  split.
  - destruct (H sample_traceparent) as (w' & H1 & H2 & _); [discriminate|].
    exists w'. split; [exact H1 | exact H2].
  - destruct (H "00-aa-bb-01") as (w' & H1 & H2 & _); [discriminate|].
    exists w'. split; [exact H1 | exact H2].
Defined.
